(** * Interview assessment: entity comparison, verdict heuristic, judgment
      normaliser and report layout of [main.py], embedded and verified.

    Python values are modelled as follows.
    - An entity is the pair [(text, label)] of two strings; a Python [set] of
      entities is a [gset entity], so equality of sets is extensional and
      [len] is [size].
    - A Python [str] is a [string]; every character of the model stands for
      one code point, and the predicates on characters ([isspace], [upper])
      are those of code points below 256.
    - [int] is [Z]; the page coordinates of ReportLab (floats that only ever
      hold integers here) are [Z] as well.
    - [try]/[except] is an explicit [outcome] type with a handler. *)

From Stdlib Require Import ZArith Lia Ascii String List Bool.
From Stdlib Require Import Numbers.DecimalString.
From stdpp Require Import base gmap sets list strings.

Local Open Scope Z_scope.
Set Warnings "-clear-no-such-hyp,-register-all".

(** ** Entity comparator *)

Module Entities.

Definition entity : Type := string * string.

(** [compare_entities] of main.py, lines 56-59. *)
Definition compare_entities (transcript_ents cv_ents : gset entity)
  : gset entity * gset entity :=
  let matched := transcript_ents ∩ cv_ents in
  let cv_only := cv_ents ∖ transcript_ents in
  (matched, cv_only).

End Entities.

(** ** Python string operations *)

Module PyStr.

(** The newline character and the [str] made of it. *)
Definition nl_char : ascii := "010"%char.
Definition nl : string := String nl_char "".

(** [len(s)] as an [int]. *)
Definition len (s : string) : Z := Z.of_nat (String.length s).

(** [sub in s]: [sub] occurs in [s] as a contiguous substring. *)
Fixpoint contains (sub s : string) : bool :=
  if String.prefix sub s then true
  else match s with
       | EmptyString => false
       | String _ s' => contains sub s'
       end.

(** [c.upper()] on one character: the ASCII letters [a]-[z] go to [A]-[Z];
    every other character is kept. The source only ever searches the
    upper-cased text for the ASCII words HIRE and REJECT, and below code
    point 256 no other character upper-cases to a letter of those words. *)
Definition upper_char (c : ascii) : ascii :=
  let n := nat_of_ascii c in
  if ((97 <=? n) && (n <=? 122))%nat then ascii_of_nat (n - 32) else c.

Fixpoint upper (s : string) : string :=
  match s with
  | EmptyString => EmptyString
  | String c s' => String (upper_char c) (upper s')
  end.

(** [s[:n]]. *)
Definition slice_to (n : nat) (s : string) : string := String.substring 0 n s.

(** [s.split(sep)] for a one-character separator: the pieces between the
    separators, empty pieces included; never the empty list. *)
Fixpoint split_on (sep : ascii) (s : string) : list string :=
  match s with
  | EmptyString => [EmptyString]
  | String c s' =>
      if Ascii.eqb c sep then EmptyString :: split_on sep s'
      else match split_on sep s' with
           | l :: ls => String c l :: ls
           | [] => [String c EmptyString]
           end
  end.

(** [str(n)] for an [int]: decimal digits, with a minus sign when negative. *)
Definition str_int (n : Z) : string := NilEmpty.string_of_int (Z.to_int n).

(** [c.isspace()] for a code point below 256. *)
Definition is_space (c : ascii) : bool :=
  let n := nat_of_ascii c in
  ((9 <=? n) && (n <=? 13) || (28 <=? n) && (n <=? 32)
   || (n =? 133) || (n =? 160))%nat.

(** [s.split()]: the maximal runs of non-space characters, in order.
    [split_from cur s] carries the run read so far. *)
Fixpoint split_from (cur : string) (s : string) : list string :=
  match s with
  | EmptyString => if String.eqb cur "" then [] else [cur]
  | String c s' =>
      if is_space c
      then (if String.eqb cur "" then split_from "" s'
            else cur :: split_from "" s')
      else split_from (cur +:+ String c "") s'
  end.

Definition split (s : string) : list string := split_from "" s.

(** [s.lstrip()], [s.rstrip()] and [s.strip()]. *)
Fixpoint lstrip (s : string) : string :=
  match s with
  | EmptyString => EmptyString
  | String c s' => if is_space c then lstrip s' else s
  end.

Fixpoint rstrip (s : string) : string :=
  match s with
  | EmptyString => EmptyString
  | String c s' =>
      match rstrip s' with
      | EmptyString => if is_space c then EmptyString else String c EmptyString
      | r => String c r
      end
  end.

Definition strip (s : string) : string := rstrip (lstrip s).

(** [sep.join(ws)]. *)
Fixpoint join (sep : string) (ws : list string) : string :=
  match ws with
  | [] => EmptyString
  | [w] => w
  | w :: ws' => w +:+ sep +:+ join sep ws'
  end.

(** *** Predicates on texts used in the statements *)

(** [c] does not occur in [s]. *)
Fixpoint avoids (c : ascii) (s : string) : bool :=
  match s with
  | EmptyString => true
  | String a s' => negb (Ascii.eqb a c) && avoids c s'
  end.

(** No character of [s] is a space. *)
Fixpoint spaceless (s : string) : bool :=
  match s with
  | EmptyString => true
  | String c s' => negb (is_space c) && spaceless s'
  end.

(** A word of [split]: not empty and without a space. *)
Definition is_word (w : string) : Prop := w ≠ "" ∧ spaceless w = true.

(** The text starts with a character that is not a space. *)
Definition starts_clean (s : string) : bool :=
  match s with
  | EmptyString => false
  | String c _ => negb (is_space c)
  end.

End PyStr.

(** ** Judgment normaliser and verdict heuristic *)

Module Judgment.
Import Entities PyStr.

(** What a Python call does: it returns a value or raises. *)
Inductive outcome (A : Type) : Type :=
| Returns (a : A)
| Raises.
Arguments Returns {A} a.
Arguments Raises {A}.

(** What an entry of a parsed response may hold: a text, [None], a
    boolean, a number, a list, or a dict with text keys. Of a number the
    code only tests whether it is zero. *)
Inductive value : Type :=
| VText (s : string)
| VNone
| VBool (b : bool)
| VInt (n : Z)
| VFloat (is_zero : bool)
| VList (items : list value)
| VDict (entries : list (string * value)).

(** What [ollama.generate] hands back: a [dict], of which the code reads
    the entry ['response'] whatever it holds (absent entries default to the
    empty text), or some other object, of which the code takes
    [str(response)]. *)
Inductive response : Type :=
| RDict (entry : option value)
| RObject (repr : string).

(** The external judge: [import ollama] fails, or [generate] is a function
    of the prompt that returns a response or raises. *)
Inductive judge : Type :=
| Absent
| Present (generate : string → outcome response).

(** The f-string of lines 65-75. *)
Definition prompt (transcript : string) (grammar_errors : Z)
    (matched_entities missing_entities : gset entity) : string :=
  "You are an expert HR interviewer. Analyze this interview professionally."
  +:+ nl +:+ nl
  +:+ "TRANSCRIPT (first 400 chars): " +:+ slice_to 400 transcript +:+ nl +:+ nl
  +:+ "ANALYSIS:" +:+ nl
  +:+ "- Grammar errors: " +:+ str_int grammar_errors +:+ nl
  +:+ "- Skills mentioned: " +:+ str_int (Z.of_nat (size matched_entities)) +:+ nl
  +:+ "- Skills missing: " +:+ str_int (Z.of_nat (size missing_entities)) +:+ nl +:+ nl
  +:+ "Write a brief 3-4 sentence assessment. End with:" +:+ nl
  +:+ "VERDICT: HIRE / REJECT / MAYBE".

(** Line 78. *)
Definition assessment_of (r : response) : value :=
  match r with
  | RDict (Some a) => a
  | RDict None => VText ""
  | RObject repr => VText repr
  end.

(** Lines 80-86 on an assessment that is a text, the normalisation of an
    assessment that is long enough: [Some] is the [return assessment] of
    line 86, [None] is falling out of the [if]. *)
Definition accept_assessment (assessment : string) : option string :=
  if negb (String.eqb assessment "") && (30 <? len assessment)
  then
    if negb (contains "VERDICT:" assessment)
    then
      if contains "HIRE" (upper assessment)
      then Some (assessment +:+ nl +:+ nl +:+ "VERDICT: HIRE")
      else Some (assessment +:+ nl +:+ nl +:+ "VERDICT: REJECT")
    else Some assessment
  else None.

(** ["VERDICT:" == item]: only the text itself is equal to it. *)
Definition is_marker (item : value) : bool :=
  match item with
  | VText s => String.eqb s "VERDICT:"
  | _ => false
  end.

(** The keys of a dict, each once: later entries of a key replace earlier
    ones. *)
Definition keys (entries : list (string * value)) : list string :=
  remove_dups (map fst entries).

(** A list or a dict of more than 30 items that holds the text [VERDICT:]
    as an item, or as a key. *)
Definition marked_container (v : value) : bool :=
  match v with
  | VList items =>
      (30 <? Z.of_nat (length items)) && existsb is_marker items
  | VDict entries =>
      (30 <? Z.of_nat (length (keys entries)))
      && existsb (String.eqb "VERDICT:") (keys entries)
  | _ => false
  end.

(** Lines 80-86 on whatever line 78 bound. [None], [False], zero and empty
    containers are false; [len] of a boolean or a number raises; ["VERDICT:"
    not in] a list or a dict tests its items or its keys, and such a
    container has no [upper], so that line 82 raises on it. *)
Definition accept_value (assessment : value) : outcome (option value) :=
  match assessment with
  | VText s => Returns (VText <$> accept_assessment s)
  | VNone => Returns None
  | VBool b => if b then Raises else Returns None
  | VInt n => if n =? 0 then Returns None else Raises
  | VFloat is_zero => if is_zero then Returns None else Raises
  | VList items =>
      if 30 <? Z.of_nat (length items)
      then if negb (existsb is_marker items) then Raises
           else Returns (Some assessment)
      else Returns None
  | VDict entries =>
      if 30 <? Z.of_nat (length (keys entries))
      then if negb (existsb (String.eqb "VERDICT:") (keys entries)) then Raises
           else Returns (Some assessment)
      else Returns None
  end.

(** The list [["VERDICT:"] + ["x"] * 30]. *)
Definition marked_list : value :=
  VList (VText "VERDICT:" :: repeat (VText "x") 30).

(** The body of the [try] block, lines 64-86. *)
Definition try_block (j : judge) (transcript : string) (grammar_errors : Z)
    (matched_entities missing_entities : gset entity)
  : outcome (option value) :=
  match j with
  | Absent => Raises
  | Present generate =>
      match generate (prompt transcript grammar_errors
                        matched_entities missing_entities) with
      | Raises => Raises
      | Returns r => accept_value (assessment_of r)
      end
  end.

(** Line 91. *)
Definition fallback_verdict (grammar_errors : Z) (n_matched : nat) : string :=
  if (grammar_errors <? 5) && (3 <=? n_matched)%nat then "HIRE"
  else if 15 <? grammar_errors then "REJECT"
  else "MAYBE".

(** Lines 92-94. *)
Definition fallback (grammar_errors : Z) (n_matched : nat) : string :=
  "The candidate demonstrated professional communication abilities."
  +:+ " Experience alignment is "
  +:+ (if (3 <? n_matched)%nat then "excellent"
       else if (1 <? n_matched)%nat then "good" else "limited")
  +:+ ". Technical competency appears "
  +:+ (if (3 <? n_matched)%nat then "strong" else "adequate")
  +:+ "." +:+ nl +:+ nl
  +:+ "VERDICT: " +:+ fallback_verdict grammar_errors n_matched.

(** [get_llm_judgment], lines 61-94: the bare [except] swallows whatever
    the [try] block raises, and the code after it cannot raise. Line 86
    returns the assessment whatever it is. *)
Definition get_llm_judgment (j : judge) (transcript : string)
    (grammar_errors : Z) (matched_entities missing_entities : gset entity)
  : outcome value :=
  match try_block j transcript grammar_errors
          matched_entities missing_entities with
  | Returns (Some assessment) => Returns assessment
  | Returns None | Raises =>
      Returns (VText (fallback grammar_errors (size matched_entities)))
  end.

(** An assessment without a usable length: a text that is empty or at most
    30 characters long, a list or a dict of at most 30 items, or a value
    that has no length at all. *)
Definition undersized (assessment : value) : Prop :=
  match assessment with
  | VText s => s = "" ∨ len s <= 30
  | VList items => Z.of_nat (length items) <= 30
  | VDict entries => Z.of_nat (length (keys entries)) <= 30
  | VNone | VBool _ | VInt _ | VFloat _ => True
  end.

(** The judge gave nothing usable: it is absent, it raised, or its
    assessment is undersized. *)
Definition unavailable_or_undersized (j : judge) (prompt : string) : Prop :=
  match j with
  | Absent => True
  | Present generate =>
      match generate prompt with
      | Raises => True
      | Returns r => undersized (assessment_of r)
      end
  end.

(** The reader of main.py, lines 425-426: the first line of the judgment
    that contains [VERDICT:]. *)
Definition verdict_line (llm_summary : string) : option string :=
  head (filter (λ l, contains "VERDICT:" l = true) (split_on nl_char llm_summary)).

(** ** The verdict policy as the specification words it *)

Inductive verdict : Type := HIRE | REJECT | REVIEW.

Definition verdict_token (v : verdict) : string :=
  match v with HIRE => "HIRE" | REJECT => "REJECT" | REVIEW => "MAYBE" end.

(** First match wins: more than 15 errors rejects; else fewer than 5 errors
    with at least 3 matches hires; else review. *)
Definition spec_verdict (grammar_errors : Z) (matched_count : nat) : verdict :=
  if 15 <? grammar_errors then REJECT
  else if (grammar_errors <? 5) && (3 <=? matched_count)%nat then HIRE
  else REVIEW.

End Judgment.

(** ** Report compiler *)

Module Report.
Import Entities PyStr.
Export Judgment (outcome, Returns, Raises).

(** *** The canvas *)

(** A colour, each component in tenths: [(0.2, 0.8, 0.2)] is [(2, 8, 2)]. *)
Definition rgb : Type := Z * Z * Z.

(** The canvas operations that place something on a page or end one. Font
    and colour settings do not move the cursor and are left out, but for
    the fill colour of a rectangle, which is carried by [Rect]. *)
Inductive op : Type :=
| DrawString (x y : Z) (text : string)
| Rect (fill : rgb) (x y width height : Z)
| Line (x1 y1 x2 y2 : Z)
| ShowPage
| Save.

(** Code that draws: its value and the operations it sent to the canvas. *)
Definition canvas (A : Type) : Type := A * list op.

Definition ret {A : Type} (a : A) : canvas A := (a, []).

Definition bind {A B : Type} (m : canvas A) (k : A → canvas B) : canvas B :=
  let r := k (fst m) in (fst r, snd m ++ snd r).

Definition emit (o : op) : canvas unit := (tt, [o]).

Declare Scope canvas_scope.
Delimit Scope canvas_scope with canvas.
Notation "x <- m ;; k" := (bind m (λ x, k))
  (at level 20, m at level 99, k at level 200, only parsing) : canvas_scope.
Notation "' pat <- m ;; k" := (bind m (λ x, match x with pat => k end))
  (at level 20, pat pattern, m at level 99, k at level 200, only parsing)
  : canvas_scope.
Local Open Scope canvas_scope.

(** [letter]: 612 by 792 points. *)
Definition w : Z := 612.
Definition h : Z := 792.

(** One-character stand-ins for the code points outside Latin-1 that the
    report texts use: check mark, ballot cross, diamond, and the pictograph
    that opens a section title. Each counts for one in [len], as in
    Python, and none is a space. *)
Definition tick : string := String "252"%char "".
Definition cross : string := String "215"%char "".
Definition diamond : string := String "254"%char "".
Definition pictograph : string := String "164"%char "".

(** [if y < limit: c.showPage(); y = h - 40]. *)
Definition page_break_below (limit y : Z) : canvas Z :=
  if y <? limit then (_ <- emit ShowPage ;; ret (h - 40)) else ret y.

(** Lines 104-112. *)
Definition draw_colored_box (y_pos : Z) (color_rgb : rgb) (text : string)
  : canvas Z :=
  _ <- emit (Rect color_rgb 40 (y_pos - 25) (w - 80) 25) ;;
  _ <- emit (DrawString 50 (y_pos - 18) text) ;;
  ret (y_pos - 30).

(** Lines 114-124. *)
Definition draw_section_header (y_pos : Z) (title : string) : canvas Z :=
  _ <- emit (DrawString 40 y_pos title) ;;
  _ <- emit (Line 40 (y_pos - 5) (w - 40) (y_pos - 5)) ;;
  ret (y_pos - 25).

(** [if line: c.drawString(x, y_pos, line[:110]); y_pos -= size + 3]. *)
Definition flush_line (x size : Z) (line : string) (y_pos : Z) : canvas Z :=
  if String.eqb line "" then ret y_pos
  else (_ <- emit (DrawString x y_pos (slice_to 110 line)) ;;
        ret (y_pos - (size + 3))).

(** The width test of line 136, [len(candidate) * (size * 0.5) < max_width].
    Sizes and widths are integers, so the floating-point product is exact
    and the test is the integer test on the doubled width. *)
Definition fits (candidate : string) (size max_width : Z) : bool :=
  len candidate * size <? 2 * max_width.

(** The [for] loop of lines 135-146 over the remaining words. *)
Fixpoint wrap_loop (x size max_width : Z) (words : list string)
    (line : string) (y_pos : Z) : canvas (string * Z) :=
  match words with
  | [] => ret (line, y_pos)
  | word :: rest =>
      '(line, y_pos) <-
        (if fits (strip (line +:+ " " +:+ word)) size max_width
         then ret (strip (line +:+ " " +:+ word), y_pos)
         else (y_pos <- flush_line x size line y_pos ;;
               ret (word, y_pos))) ;;
      y_pos <- page_break_below 50 y_pos ;;
      wrap_loop x size max_width rest line y_pos
  end.

(** [wrap_text], lines 126-152. *)
Definition wrap_text (y_pos : Z) (text : string) (size indent : Z) : canvas Z :=
  let x := 40 + indent in
  let max_width := w - 80 - indent in
  let words := split text in
  '(line, y_pos) <- wrap_loop x size max_width words "" y_pos ;;
  flush_line x size line y_pos.

(** *** The line breaking of [wrap_text] on its own

    The lines that the loop of [wrap_text] hands to [drawString], before
    the slice [[:110]], as a function of the words alone: the cursor and
    the page breaks play no part in where a line ends. [lines_from] starts
    with a pending [line]. *)
Fixpoint lines_from (size max_width : Z) (words : list string)
    (line : string) : list string :=
  match words with
  | [] => if String.eqb line "" then [] else [line]
  | word :: rest =>
      if fits (strip (line +:+ " " +:+ word)) size max_width
      then lines_from size max_width rest (strip (line +:+ " " +:+ word))
      else (if String.eqb line "" then [] else [line])
           ++ lines_from size max_width rest word
  end.

Definition wrap_lines (text : string) (size indent : Z) : list string :=
  lines_from size (w - 80 - indent) (split text) "".

(** The texts handed to [drawString], in order. *)
Definition drawn_texts (ops : list op) : list string :=
  flat_map (λ o, match o with DrawString _ _ t => [t] | _ => [] end) ops.

(** *** The page content of [generate_beautiful_pdf]

    The function is one long body; it is cut here at its own comment
    banners (header, verdict box, quick stats, detailed assessment, areas
    for improvement, recommendations, next steps, footer). *)

(** What the code reads from outside its arguments: the two renderings of
    [datetime.now()] on line 173 and the identifier of line 363; and what
    it computes in floating point: the [alignment] percentage of line 194,
    seen through its two comparisons (lines 232, 234) and its [.0f]
    rendering (line 200). *)
Record ambient : Type := {
  date_text : string;
  time_text : string;
  assessment_id : string;
  alignment_above_75 : bool;
  alignment_above_50 : bool;
  alignment_text : string
}.

Definition green : rgb := (2, 8, 2).
Definition red : rgb := (9, 2, 2).
Definition amber : rgb := (9, 7, 1).

(** The test of lines 178, 305 and 344. *)
Definition says_hire (llm_summary : string) : bool :=
  contains "HIRE" (upper llm_summary)
  && negb (contains "REJECT" (upper llm_summary)).

(** The test of lines 181 and 313. *)
Definition says_reject (llm_summary : string) : bool :=
  contains "REJECT" (upper llm_summary).

(** Lines 177-186: the banner text and its colour. *)
Definition verdict_banner (llm_summary : string) : string * rgb :=
  if says_hire llm_summary
  then ("VERDICT: " +:+ tick +:+ " HIRE", green)
  else if says_reject llm_summary
  then ("VERDICT: " +:+ cross +:+ " REJECT", red)
  else ("VERDICT: " +:+ diamond +:+ " FURTHER REVIEW", amber).

Definition hire_recommendations : list string :=
  [ tick +:+ " STRONG HIRE - Excellent communication and skill match";
    tick +:+ " Proceed to technical assessment immediately";
    tick +:+ " Prepare compensation offer package";
    tick +:+ " Schedule background verification";
    tick +:+ " Plan 30-60-90 day onboarding" ].

Definition reject_recommendations : list string :=
  [ cross +:+ " NOT RECOMMENDED at this time";
    cross +:+ " Send professional rejection with feedback";
    diamond +:+ " Suggest: English training and reapply in 6 months";
    diamond +:+ " Keep in talent pool for future opportunities";
    diamond +:+ " Provide resources for improvement" ].

Definition review_recommendations : list string :=
  [ diamond +:+ " CONDITIONAL - Requires further evaluation";
    diamond +:+ " Technical assessment recommended";
    diamond +:+ " Schedule focused follow-up interview";
    diamond +:+ " Request portfolio/project examples";
    diamond +:+ " Final decision after 2nd round" ].

(** Lines 305-328. *)
Definition recommendations (llm_summary : string) : list string :=
  if says_hire llm_summary then hire_recommendations
  else if says_reject llm_summary then reject_recommendations
  else review_recommendations.

Definition hire_steps : string :=
  "1. Contact candidate with positive feedback" +:+ nl
  +:+ "2. Schedule technical assessment interview" +:+ nl
  +:+ "3. Prepare offer letter with benefits package" +:+ nl
  +:+ "4. Conduct background and reference check" +:+ nl
  +:+ "5. Send official offer and set start date".

Definition rejection_steps : string :=
  "1. Send professional rejection email" +:+ nl
  +:+ "2. Provide constructive feedback" +:+ nl
  +:+ "3. Recommend language/skill training" +:+ nl
  +:+ "4. Keep contact for future roles" +:+ nl
  +:+ "5. Schedule 6-month follow-up".

(** Lines 344-355. *)
Definition next_steps (llm_summary : string) : string :=
  if says_hire llm_summary then hire_steps else rejection_steps.

(** The verdict as the report reads it off the judgment: the three-way
    test of lines 178-184 and 305-321. *)
Definition report_verdict (llm_summary : string) : Judgment.verdict :=
  if says_hire llm_summary then Judgment.HIRE
  else if says_reject llm_summary then Judgment.REJECT
  else Judgment.REVIEW.

Section Document.

Variable env : ambient.
Variables (grammar_errors : Z) (entities matched cv_only : gset entity).
Variables (llm_summary candidate_name position : string).

Let n_matched : Z := Z.of_nat (size matched).
Let n_cv_only : Z := Z.of_nat (size cv_only).

(** Lines 155-174. *)
Definition header_block : canvas Z :=
  let y := h - 40 in
  _ <- emit (DrawString 40 y "INTERVIEW ASSESSMENT") ;;
  let y := y - 10 in
  _ <- emit (Line 40 y (w - 40) y) ;;
  let y := y - 25 in
  _ <- emit (DrawString 40 y ("Candidate: " +:+ candidate_name
                              +:+ "  |  Position: " +:+ position)) ;;
  let y := y - 15 in
  _ <- emit (DrawString 40 y ("Date: " +:+ date_text env
                              +:+ "  |  Time: " +:+ time_text env)) ;;
  ret (y - 30).

(** Lines 176-189. *)
Definition verdict_box (y : Z) : canvas Z :=
  let '(verdict_text, color) := verdict_banner llm_summary in
  y <- draw_colored_box y color verdict_text ;;
  ret (y - 10).

(** Line 195. *)
Definition accuracy : Z := Z.max 0 (100 - grammar_errors * 3).

(** Lines 191-205. *)
Definition quick_stats (y : Z) : canvas Z :=
  y <- draw_section_header y (pictograph +:+ " QUICK STATS") ;;
  _ <- emit (DrawString 50 y (tick +:+ " Grammar Accuracy: "
                              +:+ str_int accuracy +:+ "%")) ;;
  let y := y - 15 in
  _ <- emit (DrawString 50 y (tick +:+ " Skills Discussed: "
                              +:+ str_int n_matched +:+ " out of "
                              +:+ str_int (n_matched + n_cv_only)
                              +:+ " (" +:+ alignment_text env +:+ "%)")) ;;
  let y := y - 15 in
  _ <- emit (DrawString 50 y (tick +:+ " Total Entities Identified: "
                              +:+ str_int (Z.of_nat (size entities)))) ;;
  let y := y - 15 in
  _ <- emit (DrawString 50 y (tick +:+ " Grammar Errors Found: "
                              +:+ str_int grammar_errors)) ;;
  ret (y - 25).

(** Lines 215-222. *)
Definition comm : string :=
  if grammar_errors <? 3 then
    "EXCELLENT - Outstanding communication with minimal errors. Speech is clear, professional, and well-articulated."
  else if grammar_errors <? 8 then
    "GOOD - Generally clear communication with " +:+ str_int grammar_errors
    +:+ " minor errors. Ideas expressed well but could be more polished."
  else if grammar_errors <? 12 then
    "AVERAGE - Communication present but " +:+ str_int grammar_errors
    +:+ " language errors detected. Needs professional language improvement."
  else
    "POOR - Multiple (" +:+ str_int grammar_errors
    +:+ ") language errors affecting clarity. Significant improvement needed.".

(** Lines 232-237. *)
Definition exp : string :=
  if alignment_above_75 env then
    "EXCELLENT - Candidate discussed " +:+ str_int n_matched
    +:+ " key skills. Strong awareness of relevant experience with minimal CV gaps."
  else if alignment_above_50 env then
    "GOOD - " +:+ str_int n_matched +:+ " skills discussed. However, "
    +:+ str_int n_cv_only +:+ " important CV experiences were not mentioned."
  else
    "CONCERNING - Only " +:+ str_int n_matched +:+ " of "
    +:+ str_int (n_matched + n_cv_only)
    +:+ " CV skills mentioned. Major experience gaps need clarification.".

(** Lines 247-252. *)
Definition tech : string :=
  if 3 <? n_matched then
    "STRONG - Demonstrated strong technical knowledge with specific examples. Shows confidence and domain expertise."
  else if 1 <? n_matched then
    "ADEQUATE - Adequate technical knowledge shown but limited detail. Some hesitation noted."
  else
    "LIMITED - Limited technical depth. Seemed uncertain about key competencies.".

(** Lines 207-259. *)
Definition detailed_assessment (y : Z) : canvas Z :=
  y <- draw_section_header y (pictograph +:+ " DETAILED ASSESSMENT") ;;
  _ <- emit (DrawString 50 y "1. COMMUNICATION & LANGUAGE SKILLS") ;;
  let y := y - 15 in
  y <- wrap_text y comm 9 20 ;;
  let y := y - 10 in
  _ <- emit (DrawString 50 y "2. EXPERIENCE & SKILL ALIGNMENT") ;;
  let y := y - 15 in
  y <- wrap_text y exp 9 20 ;;
  let y := y - 10 in
  _ <- emit (DrawString 50 y "3. TECHNICAL KNOWLEDGE & CONFIDENCE") ;;
  let y := y - 15 in
  y <- wrap_text y tech 9 20 ;;
  let y := y - 20 in
  page_break_below 150 y.

(** Lines 265-279: area, current state, recommended action. *)
Definition improvements : list (string * string * string) :=
  (if 5 <? grammar_errors then
     [("Communication Polish",
       str_int grammar_errors +:+ " grammar/language errors found",
       "Practice speaking clearly and slowly. Record yourself and review. Consider English language training. Focus on professional vocabulary.")]
   else [])
  ++ (if n_matched <? n_cv_only then
        [("Experience Discussion",
          "Only " +:+ str_int n_matched +:+ "/"
          +:+ str_int (n_matched + n_cv_only) +:+ " key skills discussed",
          "Prepare specific examples from your CV. Use STAR method (Situation, Task, Action, Result). Highlight ALL relevant achievements.")]
      else [])
  ++ (if (0 <? n_matched) && (n_matched <? 3) then
        [("Technical Knowledge",
          "Limited technical skills discussed (" +:+ str_int n_matched +:+ ")",
          "Study the job description thoroughly. Prepare technical project examples. Practice explaining concepts clearly.")]
      else [])
  ++ (if grammar_errors =? 0 then
        [("Communication Excellence", "No grammar errors",
          "Maintain this high standard! Your clarity is a key strength.")]
      else [])
  ++ [("Confidence & Presence", "Overall interview presence",
       "Make more eye contact. Speak with conviction. Use confident body language. Prepare thoroughly for all questions.")].

(** The loop of lines 281-295; [i] is the number of the next item. *)
Fixpoint improvements_loop (i : Z) (items : list (string * string * string))
    (y : Z) : canvas Z :=
  match items with
  | [] => ret y
  | (area, current, action) :: rest =>
      y <- page_break_below 100 y ;;
      _ <- emit (DrawString 50 y (str_int i +:+ ". " +:+ area)) ;;
      let y := y - 12 in
      _ <- emit (DrawString 60 y ("Current: " +:+ current)) ;;
      let y := y - 10 in
      y <- wrap_text y ("Action: " +:+ action) 9 30 ;;
      let y := y - 8 in
      improvements_loop (i + 1) rest y
  end.

(** Lines 261-295. *)
Definition improvement_areas (y : Z) : canvas Z :=
  y <- draw_section_header y (pictograph +:+ " AREAS FOR IMPROVEMENT") ;;
  let y := y - 10 in
  improvements_loop 1 improvements y.

(** The loop of lines 330-336. *)
Fixpoint recommendations_loop (recs : list string) (y : Z) : canvas Z :=
  match recs with
  | [] => ret y
  | rec :: rest =>
      y <- page_break_below 50 y ;;
      y <- wrap_text y rec 10 0 ;;
      let y := y - 5 in
      recommendations_loop rest y
  end.

(** Lines 297-338. *)
Definition hr_recommendations (y : Z) : canvas Z :=
  y <- page_break_below 200 y ;;
  y <- draw_section_header y (pictograph +:+ " HR RECOMMENDATIONS") ;;
  let y := y - 10 in
  y <- recommendations_loop (recommendations llm_summary) y ;;
  ret (y - 10).

(** Lines 340-357. *)
Definition next_steps_box (y : Z) : canvas Z :=
  y <- draw_section_header y (pictograph +:+ " NEXT STEPS") ;;
  let y := y - 10 in
  wrap_text y (next_steps llm_summary) 9 15.

(** Everything that is placed at the layout cursor [y], lines 155-357. *)
Definition body : canvas Z :=
  y <- header_block ;;
  y <- verdict_box y ;;
  y <- quick_stats y ;;
  y <- detailed_assessment y ;;
  y <- improvement_areas y ;;
  y <- hr_recommendations y ;;
  next_steps_box y.

(** The body before the next steps, lines 155-338: its value is the cursor
    at which the NEXT STEPS header is written. *)
Definition body_before_next_steps : canvas Z :=
  y <- header_block ;;
  y <- verdict_box y ;;
  y <- quick_stats y ;;
  y <- detailed_assessment y ;;
  y <- improvement_areas y ;;
  hr_recommendations y.

(** Lines 359-365: the footer, at two fixed heights inside the bottom
    margin, and the save. *)
Definition footer : canvas unit :=
  _ <- emit (DrawString 40 25 "CONFIDENTIAL - For HR Use Only") ;;
  _ <- emit (DrawString 40 15 ("Assessment ID: " +:+ assessment_id env)) ;;
  emit Save.

(** All canvas operations of one run, lines 101-365. *)
Definition drawing : list op :=
  snd (_ <- body ;; footer).

End Document.

(** *** The outcome of [generate_beautiful_pdf]

    What lies outside the function: whether the canvas carries out the
    operations of the run (a drawing call or the save may raise an
    [Exception]), and what the file system answers after the save to
    [os.path.exists] and to [os.path.getsize]. *)
Record world : Type := {
  execute : list op → outcome unit;
  path_exists : bool;
  getsize : outcome Z
}.

Section Generate.

Variable wd : world.
Variable env : ambient.
Variables (grammar_errors : Z) (entities matched cv_only : gset entity).
Variables (llm_summary candidate_name position : string).

(** The body of the [try], lines 101-374. The size is read and printed;
    no branch tests it. *)
Definition try_generate : outcome bool :=
  match execute wd (drawing env grammar_errors entities matched cv_only
                      llm_summary candidate_name position) with
  | Raises => Raises
  | Returns _ =>
      if path_exists wd then
        match getsize wd with
        | Raises => Raises
        | Returns size => Returns true
        end
      else Returns false
  end.

(** [generate_beautiful_pdf], lines 96-380, with its [except Exception]. *)
Definition generate_beautiful_pdf : outcome bool :=
  match try_generate with
  | Returns success => Returns success
  | Raises => Returns false
  end.

End Generate.

(** *** The page-break invariant, stated on operations *)

(** The bottom margin of the page and the height of the cursor after a
    page break. *)
Definition bottom_margin : Z := 50.
Definition top_margin : Z := h - 40.

(** An operation keeps clear of the bottom margin. *)
Definition above_margin (o : op) : Prop :=
  match o with
  | DrawString _ y _ => bottom_margin <= y
  | Rect _ _ y _ _ => bottom_margin <= y
  | Line _ y1 _ y2 => bottom_margin <= y1 ∧ bottom_margin <= y2
  | ShowPage | Save => True
  end.

(** [draws m Q]: every operation of [m] keeps clear of the bottom margin
    and the value of [m] satisfies [Q]. *)
Definition draws {A : Type} (m : canvas A) (Q : A → Prop) : Prop :=
  Forall above_margin (snd m) ∧ Q (fst m).

(** The number of page breaks among the operations. *)
Definition page_breaks (ops : list op) : nat :=
  length (filter (λ o, match o with ShowPage => true | _ => false end = true) ops).

(** *** Sample surroundings *)

(** A world in which the save succeeds and leaves an empty file. *)
Definition empty_file_world : world :=
  {| execute := λ _, Returns tt; path_exists := true; getsize := Returns 0 |}.

Definition plain_env : ambient :=
  {| date_text := "November 03, 2026"; time_text := "10:34 AM";
     assessment_id := "20261103103400";
     alignment_above_75 := false; alignment_above_50 := false;
     alignment_text := "0" |}.

End Report.

(** ** The pipeline around the comparator and the report *)

Module Pipeline.
Import Entities PyStr Judgment Report.

(** The loop of [extract_entities], lines 43-47, over what spaCy found in
    the text: the pairs [(ent.text, ent.label_)] of [doc.ents], in order. *)
Definition entities_of_ents (ents : list (string * string)) : gset entity :=
  foldl (λ entities ent,
           let ent_text := strip ent.1 in
           if String.eqb ent_text "" then entities
           else entities ∪ {[ (ent_text, ent.2) ]})
        ∅ ents.

(** [extract_entities], lines 39-48; [nlp] is the loaded spaCy model, which
    may fail to load or to run. *)
Definition extract_entities (nlp : string → outcome (list (string * string)))
    (text : string) : outcome (gset entity) :=
  match nlp text with
  | Raises => Raises
  | Returns ents => Returns (entities_of_ents ents)
  end.

(** [analyze_grammar], lines 33-37; [check] is LanguageTool, of whose
    matches only the number is used. *)
Definition analyze_grammar (check : string → outcome nat) (text : string)
  : outcome Z :=
  match check text with
  | Raises => Raises
  | Returns matches => Returns (Z.of_nat matches)
  end.

(** [load_cv], lines 50-54. [files] maps the path of each regular file to
    what reading it as UTF-8 gives: its text, or an exception. *)
Definition load_cv (files : gmap string (outcome string)) (cv_path : string)
  : outcome string :=
  match files !! cv_path with
  | None => Raises
  | Some content => content
  end.

(** What [main] calls and does not own. *)
Record collaborators : Type := {
  transcribe : string → outcome string;
  check : string → outcome nat;
  nlp : string → outcome (list (string * string));
  files : gmap string (outcome string);
  llm : judge;
  surroundings : ambient;
  disk : world
}.

(** What a run of [main] prints after its progress lines: the error banner
    of the [except] branch, or the verdict line, when one was found, and
    whether the line REPORT READY follows. *)
Inductive run : Type :=
| Failed
| Finished (verdict : option string) (report_ready : bool).

(** Lines 425-426: the guard, the list comprehension and the index [0],
    which raises on an empty list. *)
Definition first_verdict_line (llm_summary : string) : outcome (option string) :=
  if contains "VERDICT:" llm_summary then
    match filter (λ l, contains "VERDICT:" l = true)
            (split_on nl_char llm_summary) with
    | [] => Raises
    | verdict :: _ => Returns (Some verdict)
    end
  else Returns None.

(** Lines 425-426 on whatever the judgment is. On a list or a dict the
    guard tests the items or the keys and [split] does not exist; on a
    value that is no container the guard itself raises. *)
Definition summary_verdict_line (llm_summary : value)
  : outcome (option string) :=
  match llm_summary with
  | VText s => first_verdict_line s
  | VList items => if existsb is_marker items then Raises else Returns None
  | VDict entries =>
      if existsb (String.eqb "VERDICT:") (keys entries) then Raises
      else Returns None
  | VNone | VBool _ | VInt _ | VFloat _ => Raises
  end.

(** [generate_beautiful_pdf] on whatever the judgment is: line 178 calls
    [upper] on it, which a value that is not a text does not have; the
    exception is raised inside the [try] of the function, which then
    returns [False]. *)
Definition generate_report (wd : world) (env : ambient) (grammar_errors : Z)
    (entities matched cv_only : gset entity) (llm_summary : value)
    (candidate_name position : string) : outcome bool :=
  match llm_summary with
  | VText s =>
      generate_beautiful_pdf wd env grammar_errors entities matched cv_only
        s candidate_name position
  | _ => Returns false
  end.

Definition and_then {A B : Type} (m : outcome A) (k : A → outcome B)
  : outcome B :=
  match m with
  | Raises => Raises
  | Returns a => k a
  end.

(** The body of the [try] of [main], lines 396-434. Writing the progress
    lines to the console is taken not to fail. *)
Definition main_body (c : collaborators) : outcome (option string * bool) :=
  let audio_file := "AK012clip.mp3" in
  let cv_file := "employee_cv.txt" in
  and_then (transcribe c audio_file) (λ transcript,
  and_then (analyze_grammar (check c) transcript) (λ grammar_errors,
  and_then (extract_entities (nlp c) transcript) (λ transcript_entities,
  and_then (load_cv (files c) cv_file) (λ cv_text,
  and_then (extract_entities (nlp c) cv_text) (λ cv_entities,
  let '(matched, cv_only) := compare_entities transcript_entities cv_entities in
  and_then (get_llm_judgment (llm c) transcript grammar_errors matched cv_only)
    (λ llm_summary,
  and_then (generate_report (disk c) (surroundings c) grammar_errors
              transcript_entities matched cv_only llm_summary
              "John Doe" "Engineer") (λ success,
  and_then (summary_verdict_line llm_summary) (λ verdict,
  Returns (verdict, success))))))))).

(** [main], lines 386-439, with its [except Exception]. *)
Definition main (c : collaborators) : run :=
  match main_body c with
  | Raises => Failed
  | Returns (verdict, success) => Finished verdict success
  end.

End Pipeline.

(** ** The desktop shell of [ui.py] *)

Module Ui.

Inductive page : Type := HomePage | UploadPage | InterviewPage.

(** A PIL image: where it was read from and its size in pixels. *)
Record image : Type := {
  source : string;
  width : Z;
  height : Z
}.

Definition resize (img : image) (new_width new_height : Z) : image :=
  {| source := source img; width := new_width; height := new_height |}.

(** The state of the application that the callbacks read and write:
    [EvalynApp.current_photo], the frame that was raised last, the images
    held by the label of the upload page and by the video frame of the
    interview page, and the text of the transcript box. *)
Record app : Type := {
  current_photo : option image;
  raised : page;
  photo_label : option image;
  video_frame : option image;
  transcript_box : string
}.

(** [show_frame], lines 22-24. *)
Definition show_frame (a : app) (p : page) : app :=
  {| current_photo := current_photo a; raised := p;
     photo_label := photo_label a; video_frame := video_frame a;
     transcript_box := transcript_box a |}.

(** [set_photo] and [get_photo], lines 26-30. *)
Definition set_photo (a : app) (pil_img : image) : app :=
  {| current_photo := Some pil_img; raised := raised a;
     photo_label := photo_label a; video_frame := video_frame a;
     transcript_box := transcript_box a |}.

Definition get_photo (a : app) : option image := current_photo a.

(** [InterviewPage.update_photo], lines 135-141. *)
Definition update_photo (a : app) : app :=
  match get_photo a with
  | Some photo =>
      {| current_photo := current_photo a; raised := raised a;
         photo_label := photo_label a;
         video_frame := Some (resize photo 210 260);
         transcript_box := transcript_box a |}
  | None => a
  end.

(** [EvalynApp.__init__], lines 6-20: no photo; the three pages are built in
    order, the constructor of the interview page calls [update_photo]; the
    home page is raised. *)
Definition init : app :=
  let a := {| current_photo := None; raised := HomePage; photo_label := None;
              video_frame := None; transcript_box := "" |} in
  show_frame (update_photo a) HomePage.

(** What the file dialog and [Image.open] give to [upload_img]: no path, a
    path that does not open as an image, or an image. *)
Inductive picked : Type :=
| Cancelled
| Unreadable
| Opened (img : image).

(** [UploadPage.upload_img], lines 95-105. An exception of [Image.open]
    ends the callback before anything is written. *)
Definition upload_img (a : app) (choice : picked) : app :=
  match choice with
  | Cancelled | Unreadable => a
  | Opened img =>
      let pil_img := resize img 180 180 in
      set_photo
        {| current_photo := current_photo a; raised := raised a;
           photo_label := Some pil_img; video_frame := video_frame a;
           transcript_box := transcript_box a |}
        pil_img
  end.

Definition started_text : string :=
  "Interview started... [Mic/Recording logic here in real app]".

Definition ended_text : string :=
  String "010"%char "Interview ended. Data saved!".

(** [fake_start_interview] and [fake_end_interview], lines 143-148. *)
Definition fake_start_interview (a : app) : app :=
  {| current_photo := current_photo a; raised := raised a;
     photo_label := photo_label a; video_frame := video_frame a;
     transcript_box := started_text |}.

Definition fake_end_interview (a : app) : app :=
  {| current_photo := current_photo a; raised := raised a;
     photo_label := photo_label a; video_frame := video_frame a;
     transcript_box := transcript_box a +:+ ended_text |}.

(** The commands bound to the buttons of the three pages. *)
Inductive command : Type :=
| StartInterviewFromHome
| ViewReport
| UploadImage (choice : picked)
| SubmitAndStart
| StartInterview
| EndInterview.

(** One callback. No guard on the raised page is modelled: the statements
    below hold whichever button is reached. *)
Definition handle (a : app) (cmd : command) : app :=
  match cmd with
  | StartInterviewFromHome => show_frame a UploadPage
  | ViewReport => a
  | UploadImage choice => upload_img a choice
  | SubmitAndStart => show_frame a InterviewPage
  | StartInterview => fake_start_interview a
  | EndInterview => fake_end_interview a
  end.

Definition handle_all (a : app) (cmds : list command) : app :=
  foldl handle a cmds.

End Ui.

(** ** The definitions on sample inputs *)

Module PyStrTests.
Import PyStr.

Example contains_ex : contains "HIRE" (upper "I would hire them") = true.
Proof. reflexivity. Qed.

Example split_on_ex : split_on nl_char ("a" +:+ nl +:+ nl +:+ "b") = ["a"; ""; "b"].
Proof. reflexivity. Qed.

Example split_ex : split ("  two   words" +:+ nl +:+ " here ") = ["two"; "words"; "here"].
Proof. reflexivity. Qed.

Example strip_ex : strip "  a b  " = "a b".
Proof. reflexivity. Qed.

Example str_int_ex : str_int 0 = "0" ∧ str_int 1203 = "1203" ∧ str_int (-7) = "-7".
Proof. repeat split; reflexivity. Qed.

Example join_ex : join " " ["a"; "b"; "c"] = "a b c".
Proof. reflexivity. Qed.

End PyStrTests.

Module ReportTests.
Import PyStr Report.

Example wrap_text_ex :
  wrap_text 60 "aaaa bbbb cccc dddd" 10 522
  = (713,
     [DrawString 562 60 "aaaa"; ShowPage; DrawString 562 752 "bbbb";
      DrawString 562 739 "cccc"; DrawString 562 726 "dddd"]).
Proof. vm_compute. reflexivity. Qed.

(** At size 9 and indent 20 a line may hold up to 113 characters; a line
    of 111 is drawn cut to 110. *)
Example wrap_text_cut :
  let text := "abc abc abc abc abc abc abc abc abc abc abc abc abc abc abc abc abc abc abc abc abc abc abc abc abc abc abc abc" in
  map String.length (wrap_lines text 9 20) = [111%nat]
  ∧ map String.length (drawn_texts (snd (wrap_text 700 text 9 20))) = [110%nat].
Proof. split; vm_compute; reflexivity. Qed.

End ReportTests.

(** ** Facts on the entity comparator *)

Module EntitiesFacts.
Import Entities.

(** C3. [compare_entities A B] returns [A ∩ B] and [B ∖ A]; entities are
    compared as (text, label) pairs, so two entities with the same text and
    different labels are different; the two outputs are disjoint, and an
    empty CV set (in particular two empty inputs) gives two empty
    outputs. *)
Theorem compare_entities_spec (A B : gset entity) :
  compare_entities A B = (A ∩ B, B ∖ A)
  ∧ (∀ e, e ∈ (compare_entities A B).1 ↔ e ∈ A ∧ e ∈ B)
  ∧ (∀ e, e ∈ (compare_entities A B).2 ↔ e ∈ B ∧ e ∉ A)
  ∧ compare_entities {[ ("Python", "SKILL") ]} {[ ("Python", "ORG") ]}
    = (∅, {[ ("Python", "ORG") ]})
  ∧ (compare_entities A B).1 ∩ (compare_entities A B).2 = ∅
  ∧ compare_entities A ∅ = (∅, ∅)
  ∧ compare_entities ∅ ∅ = (∅, ∅).
Proof.
  unfold compare_entities; simpl.
  split; [reflexivity|].
  split; [intros e; apply elem_of_intersection|].
  split; [intros e; rewrite elem_of_difference; tauto|].
  split; [f_equal; set_solver|].
  split; [set_solver|].
  split; f_equal; set_solver.
Qed.

(** C9. The two outputs partition the CV set: their union is [B], every CV
    entity lies in exactly one of them, and an entity that occurs only in
    the transcript lies in neither. *)
Theorem compare_entities_partition (A B : gset entity) :
  let matched := (compare_entities A B).1 in
  let cv_only := (compare_entities A B).2 in
  matched ∪ cv_only = B
  ∧ (∀ e, e ∈ B ↔ (e ∈ matched ∧ (e ∉ cv_only)) ∨ ((e ∉ matched) ∧ e ∈ cv_only))
  ∧ (A ∖ B) ∩ (matched ∪ cv_only) = ∅
  ∧ (∀ e, e ∈ A ∖ B ↔ e ∈ A ∧ (e ∉ matched) ∧ (e ∉ cv_only)).
Proof.
  unfold compare_entities; simpl.
  assert (Hu : (A ∩ B) ∪ (B ∖ A) = B).
  { apply set_eq. intros e.
    rewrite elem_of_union, elem_of_intersection, elem_of_difference.
    destruct (decide (e ∈ A)); tauto. }
  split; [exact Hu|].
  split.
  { intros e. rewrite elem_of_intersection, elem_of_difference.
    destruct (decide (e ∈ A)); tauto. }
  split; [rewrite Hu; set_solver|].
  intros e. rewrite elem_of_intersection, !elem_of_difference.
  destruct (decide (e ∈ B)); tauto.
Qed.

End EntitiesFacts.

(** ** Facts on the string operations *)

Module PyStrFacts.
Import PyStr.

Lemma contains_unfold (sub s : string) :
  contains sub s =
    if String.prefix sub s then true
    else match s with
         | EmptyString => false
         | String _ s' => contains sub s'
         end.
Proof. destruct s; reflexivity. Qed.

Lemma prefix_nil (s : string) : String.prefix EmptyString s = true.
Proof. destruct s; reflexivity. Qed.

Lemma contains_of_prefix (sub s : string) :
  String.prefix sub s = true → contains sub s = true.
Proof. intros H. rewrite contains_unfold, H. reflexivity. Qed.

Lemma contains_cons (sub : string) (c : ascii) (s : string) :
  contains sub s = true → contains sub (String c s) = true.
Proof.
  intros H. rewrite contains_unfold, H.
  destruct (String.prefix sub (String c s)); reflexivity.
Qed.

Lemma split_on_nonempty (sep : ascii) (s : string) : split_on sep s ≠ [].
Proof.
  destruct s as [|c s]; simpl; [discriminate|].
  destruct (Ascii.eqb c sep); [discriminate|].
  destruct (split_on sep s); discriminate.
Qed.

(** A prefix of the text that holds no separator is a prefix of the first
    piece. *)
Lemma prefix_first_piece (sep : ascii) (sub : string) :
  avoids sep sub = true →
  ∀ s, String.prefix sub s = true →
       String.prefix sub (hd EmptyString (split_on sep s)) = true.
Proof.
  induction sub as [|a sub IH]; intros Hav s Hp; [apply prefix_nil|].
  simpl in Hav. apply andb_prop in Hav as [Ha Hav].
  destruct s as [|b s]; simpl in Hp; [discriminate|].
  destruct (ascii_dec a b) as [->|]; [|discriminate].
  specialize (IH Hav s Hp).
  simpl. apply negb_true_iff in Ha. rewrite Ha.
  destruct (split_on sep s) as [|l ls]; simpl in *.
  - destruct (ascii_dec b b); [exact IH|congruence].
  - destruct (ascii_dec b b); [exact IH|congruence].
Qed.

(** A substring that holds no separator lies inside one of the pieces. *)
Lemma contains_in_piece (sep : ascii) (sub : string) :
  avoids sep sub = true →
  ∀ s, contains sub s = true →
       Exists (λ l, contains sub l = true) (split_on sep s).
Proof.
  intros Hav s. induction s as [|c s IH]; intros Hc.
  - rewrite contains_unfold in Hc.
    destruct (String.prefix sub EmptyString) eqn:Hp; [|discriminate].
    simpl. apply Exists_cons_hd. apply contains_of_prefix, Hp.
  - rewrite contains_unfold in Hc.
    destruct (String.prefix sub (String c s)) eqn:Hp.
    + pose proof (prefix_first_piece sep sub Hav _ Hp) as Hh.
      pose proof (split_on_nonempty sep (String c s)) as Hne.
      destruct (split_on sep (String c s)) as [|l ls]; [congruence|].
      apply Exists_cons_hd. apply contains_of_prefix, Hh.
    + specialize (IH Hc). simpl.
      destruct (Ascii.eqb c sep); [apply Exists_cons_tl, IH|].
      destruct (split_on sep s) as [|l ls]; [inversion IH|].
      apply Exists_cons in IH as [Hl|Hls].
      * apply Exists_cons_hd, contains_cons, Hl.
      * apply Exists_cons_tl, Hls.
Qed.

Lemma prefix_app (s t : string) : String.prefix s (s +:+ t) = true.
Proof.
  induction s as [|c s IH]; [apply prefix_nil|].
  change (String c s +:+ t) with (String c (s +:+ t)). simpl.
  destruct (ascii_dec c c); [exact IH|congruence].
Qed.

Lemma prefix_refl (s : string) : String.prefix s s = true.
Proof.
  induction s as [|c s IH]; [reflexivity|]. simpl.
  destruct (ascii_dec c c); [exact IH|congruence].
Qed.

Lemma contains_app_r (sub s t : string) :
  contains sub t = true → contains sub (s +:+ t) = true.
Proof.
  intros H. induction s as [|c s IH]; [exact H|].
  change (String c s +:+ t) with (String c (s +:+ t)).
  apply contains_cons, IH.
Qed.

(** *** Words *)

Lemma sapp_cons (c : ascii) (a b : string) :
  String c a +:+ b = String c (a +:+ b).
Proof. reflexivity. Qed.

Lemma sapp_nil_l (s : string) : "" +:+ s = s.
Proof. reflexivity. Qed.

Lemma sapp_nil_r (s : string) : s +:+ "" = s.
Proof. induction s as [|c s IH]; [reflexivity|]. rewrite sapp_cons, IH. reflexivity. Qed.

Lemma sapp_assoc (a b c : string) : (a +:+ b) +:+ c = a +:+ (b +:+ c).
Proof.
  induction a as [|x a IH]; [reflexivity|]. rewrite !sapp_cons, IH. reflexivity.
Qed.

Lemma sapp_snoc_nonempty (s : string) (c : ascii) : s +:+ String c "" ≠ "".
Proof. destruct s; discriminate. Qed.

Lemma spaceless_app (a b : string) :
  spaceless (a +:+ b) = spaceless a && spaceless b.
Proof.
  induction a as [|c a IH]; [reflexivity|].
  rewrite sapp_cons. simpl. rewrite IH, andb_assoc. reflexivity.
Qed.

Lemma spaceless_uint (d : Decimal.uint) :
  spaceless (NilEmpty.string_of_uint d) = true.
Proof. induction d; simpl; try rewrite IHd; reflexivity. Qed.

Lemma spaceless_str_int (n : Z) : spaceless (str_int n) = true.
Proof.
  unfold str_int. destruct (Z.to_int n); simpl;
    try rewrite spaceless_uint; reflexivity.
Qed.

(** [split_from] with a pending run yields the same number of words
    whatever the run is. *)
Lemma split_from_length_pending (s : string) :
  ∀ cur1 cur2, cur1 ≠ "" → cur2 ≠ "" →
    length (split_from cur1 s) = length (split_from cur2 s).
Proof.
  induction s as [|c s IH]; intros cur1 cur2 H1 H2; simpl.
  - destruct (String.eqb_spec cur1 ""), (String.eqb_spec cur2 "");
      try contradiction; reflexivity.
  - destruct (is_space c).
    + destruct (String.eqb_spec cur1 ""), (String.eqb_spec cur2 "");
        try contradiction; reflexivity.
    + apply IH; apply sapp_snoc_nonempty.
Qed.

Lemma split_from_length_le (s cur : string) :
  (length (split_from cur s)
   ≤ (if String.eqb cur "" then 0 else 1) + length (split_from "" s))%nat.
Proof.
  destruct s as [|c s]; simpl.
  - destruct (String.eqb cur ""); simpl; lia.
  - destruct (is_space c).
    + destruct (String.eqb cur ""); simpl; lia.
    + destruct (String.eqb_spec cur "") as [->|Hne]; [simpl; lia|].
      rewrite (split_from_length_pending s (cur +:+ String c "") ("" +:+ String c ""));
        [lia|apply sapp_snoc_nonempty|discriminate].
Qed.

(** Joining two texts never makes more words than they have apart. *)
Lemma split_from_app_length (a b : string) :
  ∀ cur, (length (split_from cur (a +:+ b))
          ≤ length (split_from cur a) + length (split_from "" b))%nat.
Proof.
  induction a as [|c a IH]; intros cur.
  - rewrite sapp_nil_l. simpl.
    pose proof (split_from_length_le b cur).
    destruct (String.eqb cur ""); simpl in *; lia.
  - rewrite sapp_cons. simpl. destruct (is_space c).
    + specialize (IH ""). destruct (String.eqb cur ""); simpl; lia.
    + apply IH.
Qed.

Lemma split_app_length (a b : string) :
  (length (split (a +:+ b)) ≤ length (split a) + length (split b))%nat.
Proof. apply split_from_app_length. Qed.

Lemma split_from_spaceless (w : string) :
  spaceless w = true → ∀ cur, split_from cur w = split_from (cur +:+ w) "".
Proof.
  induction w as [|c w IH]; intros Hw cur.
  - rewrite sapp_nil_r. reflexivity.
  - simpl in Hw. apply andb_prop in Hw as [Hc Hw].
    apply negb_true_iff in Hc. simpl. rewrite Hc.
    rewrite (IH Hw). rewrite sapp_assoc. reflexivity.
Qed.

Lemma split_spaceless_length (w : string) :
  spaceless w = true → (length (split w) ≤ 1)%nat.
Proof.
  intros Hw. unfold split. rewrite (split_from_spaceless w Hw). simpl.
  destruct (String.eqb _ ""); simpl; lia.
Qed.

(** A template with one or two decimal numbers in it has no more words
    than its fixed parts and one word for each number. *)
Lemma split_template_length (a : string) (n : Z) (b : string) :
  (length (split (a +:+ str_int n +:+ b))
   ≤ length (split a) + 1 + length (split b))%nat.
Proof.
  pose proof (split_app_length a (str_int n +:+ b)).
  pose proof (split_app_length (str_int n) b).
  pose proof (split_spaceless_length _ (spaceless_str_int n)).
  lia.
Qed.

Lemma split_template2_length (a : string) (n : Z) (b : string) (m : Z)
    (c : string) :
  (length (split (a +:+ str_int n +:+ b +:+ str_int m +:+ c))
   ≤ length (split a) + 1 + length (split b) + 1 + length (split c))%nat.
Proof.
  pose proof (split_template_length a n (b +:+ str_int m +:+ c)).
  pose proof (split_template_length b m c).
  lia.
Qed.

(** *** Stripping and joining words *)

Lemma split_from_words (s : string) :
  ∀ cur, spaceless cur = true → Forall is_word (split_from cur s).
Proof.
  induction s as [|c s IH]; intros cur Hcur; simpl.
  - destruct (String.eqb_spec cur ""); repeat constructor; assumption.
  - destruct (is_space c) eqn:Hc.
    + destruct (String.eqb_spec cur "").
      * apply IH. reflexivity.
      * constructor; [split; assumption|apply IH; reflexivity].
    + apply IH. rewrite spaceless_app, Hcur. simpl. rewrite Hc. reflexivity.
Qed.

Lemma split_words (s : string) : Forall is_word (split s).
Proof. apply split_from_words. reflexivity. Qed.

Lemma word_starts_clean (w : string) : is_word w → starts_clean w = true.
Proof.
  intros [Hne Hw]. destruct w as [|c w]; [contradiction|].
  simpl in *. apply andb_prop in Hw as [Hc _]. exact Hc.
Qed.

Lemma lstrip_starts_clean (s : string) : starts_clean s = true → lstrip s = s.
Proof.
  destruct s as [|c s]; [reflexivity|]. simpl. intros Hc.
  apply negb_true_iff in Hc. rewrite Hc. reflexivity.
Qed.

Lemma rstrip_word (w : string) : spaceless w = true → rstrip w = w.
Proof.
  induction w as [|c w IH]; [reflexivity|]. simpl. intros Hw.
  apply andb_prop in Hw as [Hc Hw]. apply negb_true_iff in Hc.
  rewrite (IH Hw), Hc. destruct w; reflexivity.
Qed.

Lemma rstrip_app (a b : string) :
  rstrip b ≠ "" → rstrip (a +:+ b) = a +:+ rstrip b.
Proof.
  intros Hb. induction a as [|c a IH]; [reflexivity|].
  rewrite !sapp_cons. simpl. rewrite IH.
  destruct (a +:+ rstrip b) eqn:E; [|reflexivity].
  destruct a; [rewrite sapp_nil_l in E; contradiction|discriminate].
Qed.

(** Line 137 when a line is pending: the strip changes nothing. *)
Lemma strip_line_word (line w : string) :
  starts_clean line = true → is_word w →
  strip (line +:+ " " +:+ w) = line +:+ " " +:+ w.
Proof.
  intros Hl [Hne Hw]. unfold strip.
  rewrite lstrip_starts_clean.
  - rewrite rstrip_app.
    + f_equal. change (" " +:+ w) with (String " " w). simpl.
      rewrite (rstrip_word w Hw). destruct w; [contradiction|reflexivity].
    + change (" " +:+ w) with (String " " w). simpl.
      rewrite (rstrip_word w Hw). destruct w; [contradiction|discriminate].
  - destruct line; [discriminate|exact Hl].
Qed.

(** Line 137 when no line is pending: the strip removes the space. *)
Lemma strip_first_word (w : string) :
  is_word w → strip ("" +:+ " " +:+ w) = w.
Proof.
  intros Hword. pose proof (word_starts_clean w Hword) as Hs.
  destruct Hword as [Hne Hw].
  change ("" +:+ " " +:+ w) with (String " " w). unfold strip. simpl.
  rewrite (lstrip_starts_clean w Hs). apply rstrip_word, Hw.
Qed.

Lemma starts_clean_app (a b : string) :
  starts_clean a = true → starts_clean (a +:+ b) = true.
Proof. destruct a; [discriminate|]. intros H; exact H. Qed.

Lemma join_cons (sep a : string) (ws : list string) :
  ws ≠ [] → join sep (a :: ws) = a +:+ sep +:+ join sep ws.
Proof. destruct ws; [contradiction|reflexivity]. Qed.

Lemma join_nonempty (sep w : string) (ws : list string) :
  w ≠ "" → join sep (w :: ws) ≠ "".
Proof.
  intros Hw. destruct ws; [exact Hw|].
  rewrite join_cons by discriminate. destruct w; [contradiction|discriminate].
Qed.

Lemma split_from_word_then (w s : string) :
  spaceless w = true →
  ∀ cur, split_from cur (w +:+ s) = split_from (cur +:+ w) s.
Proof.
  induction w as [|c w IH]; intros Hw cur.
  - rewrite sapp_nil_r. reflexivity.
  - simpl in Hw. apply andb_prop in Hw as [Hc Hw].
    apply negb_true_iff in Hc. rewrite sapp_cons. simpl. rewrite Hc.
    rewrite (IH Hw), sapp_assoc. reflexivity.
Qed.

(** Splitting the words joined by single spaces gives the words back. *)
Lemma split_join (ws : list string) :
  Forall is_word ws → split (join " " ws) = ws.
Proof.
  induction 1 as [|w ws [Hne Hw] Hws IH]; [reflexivity|].
  unfold split in *. destruct ws as [|w2 ws].
  - simpl. rewrite (split_from_spaceless w Hw), sapp_nil_l. simpl.
    destruct (String.eqb_spec w ""); [contradiction|reflexivity].
  - rewrite join_cons by discriminate.
    rewrite (split_from_word_then w _ Hw). rewrite sapp_nil_l.
    change (" " +:+ join " " (w2 :: ws)) with (String " " (join " " (w2 :: ws))).
    simpl split_from.
    destruct (String.eqb_spec w ""); [contradiction|].
    f_equal. exact IH.
Qed.

(** [s[:n]] is [s] itself when [s] has at most [n] characters, and its
    first [n] characters otherwise. *)
Lemma slice_to_spec (n : nat) :
  ∀ s, (slice_to n s = s ∧ (String.length s ≤ n)%nat)
       ∨ ((n < String.length s)%nat
          ∧ String.length (slice_to n s) = n
          ∧ String.prefix (slice_to n s) s = true).
Proof.
  unfold slice_to. induction n as [|n IH]; intros s.
  - destruct s as [|c s]; [left; split; [reflexivity|simpl; lia]|].
    right. simpl. repeat split; lia.
  - destruct s as [|c s]; [left; split; [reflexivity|simpl; lia]|].
    simpl. destruct (IH s) as [[-> Hle]|(Hlt & Hlen & Hp)].
    + left. split; [reflexivity|lia].
    + right. rewrite Hlen. repeat split; [lia|].
      destruct (ascii_dec c c); [exact Hp|congruence].
Qed.

End PyStrFacts.

(** ** Facts on the judgment normaliser *)

Module JudgmentFacts.
Import Entities PyStr PyStrFacts Judgment.

(** C1. The verdict of line 91 is the verdict of the stated policy, in the
    stated precedence: more than 15 errors rejects whatever the matched
    count; otherwise fewer than 5 errors with 3 matches or more hires;
    otherwise the token is MAYBE (review). It holds for every integer error
    count and every matched count. *)
Theorem fallback_verdict_precedence (grammar_errors : Z) (matched_count : nat) :
  fallback_verdict grammar_errors matched_count
  = verdict_token (spec_verdict grammar_errors matched_count)
  ∧ fallback_verdict grammar_errors matched_count
    = (if 15 <? grammar_errors then "REJECT"
       else if (grammar_errors <? 5) && (3 <=? matched_count)%nat then "HIRE"
       else "MAYBE")
  ∧ fallback_verdict 20 matched_count = "REJECT"
  ∧ fallback_verdict 2 4 = "HIRE"
  ∧ fallback_verdict 7 1 = "MAYBE".
Proof.
  unfold fallback_verdict, spec_verdict.
  repeat split; try reflexivity.
  - destruct (Z.ltb_spec grammar_errors 5), (Z.ltb_spec 15 grammar_errors);
      try lia; destruct (3 <=? matched_count)%nat; reflexivity.
  - destruct (Z.ltb_spec grammar_errors 5), (Z.ltb_spec 15 grammar_errors);
      try lia; destruct (3 <=? matched_count)%nat; reflexivity.
Qed.

(** *** Helper lemmas on the normaliser *)

Lemma fallback_verdict_is_spec (ge : Z) (n : nat) :
  fallback_verdict ge n = verdict_token (spec_verdict ge n).
Proof.
  unfold fallback_verdict, spec_verdict.
  destruct (Z.ltb_spec ge 5), (Z.ltb_spec 15 ge); try lia;
    destruct (3 <=? n)%nat; reflexivity.
Qed.

Lemma accept_assessment_short (a : string) :
  a = "" ∨ len a <= 30 → accept_assessment a = None.
Proof.
  intros [->|H]; [reflexivity|].
  unfold accept_assessment.
  destruct (Z.ltb_spec 30 (len a)); [lia|].
  rewrite andb_false_r. reflexivity.
Qed.

Lemma accept_assessment_long (a : string) :
  a ≠ "" → 30 < len a →
  accept_assessment a =
    Some (if contains "VERDICT:" a then a
          else if contains "HIRE" (upper a)
               then a +:+ nl +:+ nl +:+ "VERDICT: HIRE"
               else a +:+ nl +:+ nl +:+ "VERDICT: REJECT").
Proof.
  intros Hne Hlen. unfold accept_assessment.
  destruct (String.eqb_spec a ""); [contradiction|].
  destruct (Z.ltb_spec 30 (len a)); [|lia]. simpl.
  destruct (contains "VERDICT:" a); simpl; [reflexivity|].
  destruct (contains "HIRE" (upper a)); reflexivity.
Qed.

Lemma accept_assessment_verdict (a s : string) :
  accept_assessment a = Some s → contains "VERDICT:" s = true.
Proof.
  unfold accept_assessment.
  destruct (negb (String.eqb a "") && (30 <? len a)); [|discriminate].
  destruct (contains "VERDICT:" a) eqn:Hv; simpl.
  - intros [= <-]. exact Hv.
  - destruct (contains "HIRE" (upper a)); intros [= <-];
      apply contains_app_r; reflexivity.
Qed.

(** The nine shapes of the fallback text. *)
Ltac fallback_shapes ge n :=
  unfold fallback, fallback_verdict;
  destruct (3 <? n)%nat, (1 <? n)%nat,
           ((ge <? 5) && (3 <=? n)%nat), (15 <? ge).

Lemma fallback_verdict_line (ge : Z) (n : nat) :
  contains "VERDICT:" (fallback ge n) = true
  ∧ verdict_line (fallback ge n) = Some ("VERDICT: " +:+ fallback_verdict ge n).
Proof. fallback_shapes ge n; split; vm_compute; reflexivity. Qed.

Lemma accept_value_undersized (v : value) :
  undersized v → accept_value v = Returns None ∨ accept_value v = Raises.
Proof.
  destruct v as [s| |[]|n|[]|items|entries];
    cbn [accept_value undersized]; intros H;
    try (left; reflexivity); try (right; reflexivity).
  - left. rewrite (accept_assessment_short _ H). reflexivity.
  - destruct (n =? 0); [left|right]; reflexivity.
  - destruct (Z.ltb_spec 30 (Z.of_nat (length items))); [lia|left; reflexivity].
  - destruct (Z.ltb_spec 30 (Z.of_nat (length (keys entries))));
      [lia|left; reflexivity].
Qed.

Lemma get_llm_judgment_fallback (j : judge) (transcript : string)
    (ge : Z) (matched missing : gset entity) :
  unavailable_or_undersized j (prompt transcript ge matched missing) →
  get_llm_judgment j transcript ge matched missing
  = Returns (VText (fallback ge (size matched))).
Proof.
  unfold unavailable_or_undersized, get_llm_judgment, try_block.
  destruct j as [|generate]; [reflexivity|].
  destruct (generate _) as [r|]; [|reflexivity].
  intros H. destruct (accept_value_undersized _ H) as [-> | ->]; reflexivity.
Qed.

(** What line 86 can return that is not a text. *)
Lemma accept_value_some (a v : value) :
  accept_value a = Returns (Some v) →
  (∃ s text, a = VText s ∧ v = VText text ∧ accept_assessment s = Some text)
  ∨ (v = a ∧ marked_container a = true).
Proof.
  destruct a as [s| |[]|n|[]|items|entries];
    cbn [accept_value marked_container]; try discriminate.
  - destruct (accept_assessment s) as [text|] eqn:E; cbn; [|discriminate].
    intros [= <-]. left. exists s, text. repeat split. exact E.
  - destruct (n =? 0); discriminate.
  - destruct (30 <? Z.of_nat (length items)); [|discriminate].
    destruct (existsb is_marker items); [|discriminate].
    intros [= <-]. right. split; reflexivity.
  - destruct (30 <? Z.of_nat (length (keys entries))); [|discriminate].
    destruct (existsb (String.eqb "VERDICT:") (keys entries)); [|discriminate].
    intros [= <-]. right. split; reflexivity.
Qed.

(** The two shapes of a judgment: a text that holds the marker, or the
    marked container that the judge put under ['response']. *)
Lemma judgment_shape (j : judge) (transcript : string) (ge : Z)
    (matched missing : gset entity) (v : value) :
  get_llm_judgment j transcript ge matched missing = Returns v →
  (∃ text, v = VText text ∧ contains "VERDICT:" text = true)
  ∨ (marked_container v = true
     ∧ ∃ generate, j = Present generate
         ∧ generate (prompt transcript ge matched missing)
           = Returns (RDict (Some v))).
Proof.
  unfold get_llm_judgment.
  destruct (try_block j transcript ge matched missing) as [[a|]|] eqn:Htry;
    intros [= <-];
    try (left; eexists; split; [reflexivity|apply fallback_verdict_line]).
  unfold try_block in Htry. destruct j as [|generate]; [discriminate|].
  destruct (generate _) as [r|] eqn:Hgen; [|discriminate].
  apply accept_value_some in Htry
    as [(s & text & Hr & -> & Hacc)|[-> Hm]].
  - left. exists text. split; [reflexivity|].
    eapply accept_assessment_verdict, Hacc.
  - right. split; [exact Hm|]. exists generate. split; [reflexivity|].
    destruct r as [[v|]|repr]; simpl in *; try discriminate.
    exact Hgen.
Qed.

Lemma judgment_returns (j : judge) (transcript : string) (ge : Z)
    (matched missing : gset entity) :
  ∃ v, get_llm_judgment j transcript ge matched missing = Returns v.
Proof.
  unfold get_llm_judgment.
  destruct (try_block j transcript ge matched missing) as [[a|]|];
    eexists; reflexivity.
Qed.

(** C2, as the code has it. For every judge (absent, raising, or returning
    any response) and every input, [get_llm_judgment] returns and does not
    raise. What it returns is a text of which some line contains
    [VERDICT:], with one exception: when the judge's dict holds under
    ['response'] a list or a dict of more than 30 items that holds
    [VERDICT:], that container is returned as it is. When the judge is
    unavailable or its assessment is undersized, the result is the fallback
    text, whose verdict line carries the token of the heuristic verdict for
    the same error count and matched count. *)
Theorem get_llm_judgment_verdict_line (j : judge) (transcript : string)
    (grammar_errors : Z) (matched missing : gset entity) :
  ∃ v,
    get_llm_judgment j transcript grammar_errors matched missing = Returns v
    ∧ match v with
      | VText text =>
          Exists (λ l, contains "VERDICT:" l = true) (split_on nl_char text)
      | _ =>
          marked_container v = true
          ∧ ∃ generate, j = Present generate
              ∧ generate (prompt transcript grammar_errors matched missing)
                = Returns (RDict (Some v))
      end
    ∧ (unavailable_or_undersized j
         (prompt transcript grammar_errors matched missing) →
       v = VText (fallback grammar_errors (size matched))
       ∧ verdict_line (fallback grammar_errors (size matched))
         = Some ("VERDICT: "
                 +:+ verdict_token (spec_verdict grammar_errors (size matched)))).
Proof.
  destruct (judgment_returns j transcript grammar_errors matched missing)
    as [v Hret].
  exists v. split; [exact Hret|]. split.
  - destruct (judgment_shape _ _ _ _ _ _ Hret)
      as [(text & -> & Hc)|[Hm Hgen]].
    + apply contains_in_piece; [reflexivity|exact Hc].
    + destruct v; try discriminate; split; assumption.
  - intros Hun. rewrite (get_llm_judgment_fallback _ _ _ _ _ Hun) in Hret.
    injection Hret as <-. split; [reflexivity|].
    rewrite <- fallback_verdict_is_spec.
    apply fallback_verdict_line.
Qed.

Lemma get_llm_judgment_verdict_line_witness :
  ∃ v,
    get_llm_judgment (Present (λ _, Returns (RDict (Some (VText "Too short.")))))
      "I worked at Acme for two years." 7 ∅ ∅ = Returns v
    ∧ v = VText (fallback 7 0).
Proof.
  destruct (get_llm_judgment_verdict_line
              (Present (λ _, Returns (RDict (Some (VText "Too short.")))))
              "I worked at Acme for two years." 7 ∅ ∅)
    as (v & Hret & _ & Hfb).
  exists v. split; [exact Hret|].
  apply Hfb. right. vm_compute. discriminate.
Defined.

(** C2, as stated, fails: a judge whose dict holds under ['response'] the
    list of the text [VERDICT:] and thirty more items gets that list back;
    the result is no text, and so has no line that holds [VERDICT:]. *)
Lemma get_llm_judgment_returns_a_list :
  ¬ ∃ text,
      get_llm_judgment
        (Present (λ _, Returns (RDict (Some marked_list))))
        "I worked at Acme for two years." 7 ∅ ∅
      = Returns (VText text)
      ∧ Exists (λ l, contains "VERDICT:" l = true) (split_on nl_char text).
Proof. intros (text & H & _). vm_compute in H. discriminate. Qed.

(** C4. When the judge returns a response whose assessment is a text that
    is non-empty and longer than 30 characters: an assessment that already
    contains the verdict marker [VERDICT:] is returned as it is; otherwise
    a verdict line is appended, HIRE when the upper-cased assessment
    contains HIRE and REJECT when it does not. In every case the assessment
    is a prefix of the result. *)
Theorem get_llm_judgment_long_response
    (generate : string → outcome response) (r : response)
    (transcript : string) (grammar_errors : Z) (matched missing : gset entity)
    (assessment : string) :
  generate (prompt transcript grammar_errors matched missing) = Returns r →
  assessment_of r = VText assessment →
  assessment ≠ "" →
  30 < len assessment →
  let result :=
    if contains "VERDICT:" assessment then assessment
    else if contains "HIRE" (upper assessment)
         then assessment +:+ nl +:+ nl +:+ "VERDICT: HIRE"
         else assessment +:+ nl +:+ nl +:+ "VERDICT: REJECT" in
  get_llm_judgment (Present generate) transcript grammar_errors matched missing
  = Returns (VText result)
  ∧ String.prefix assessment result = true.
Proof.
  intros Hgen Hval Hne Hlen result. split.
  - unfold get_llm_judgment, try_block. rewrite Hgen, Hval. simpl.
    rewrite (accept_assessment_long _ Hne Hlen). reflexivity.
  - subst result.
    destruct (contains "VERDICT:" assessment).
    + apply prefix_refl.
    + destruct (contains "HIRE" (upper assessment)); apply prefix_app.
Qed.

Lemma get_llm_judgment_long_response_witness :
  get_llm_judgment
    (Present (λ _, Returns (RDict (Some (VText "Clear answers; we should hire this engineer.")))))
    "I worked at Acme for two years." 2 ∅ ∅
  = Returns (VText ("Clear answers; we should hire this engineer."
                    +:+ nl +:+ nl +:+ "VERDICT: HIRE")).
Proof.
  refine (proj1 (get_llm_judgment_long_response
                   (λ _, Returns (RDict (Some (VText "Clear answers; we should hire this engineer."))))
                   (RDict (Some (VText "Clear answers; we should hire this engineer.")))
                   "I worked at Acme for two years." 2 ∅ ∅
                   "Clear answers; we should hire this engineer." _ _ _ _)).
  - reflexivity.
  - reflexivity.
  - discriminate.
  - vm_compute. reflexivity.
Defined.

(** C10. The fallback text is a function of the matched count and of the
    heuristic verdict alone: the transcript and the unmentioned set play no
    part and the error count enters only through the verdict. Its first sentence is a
    fixed sentence on communication; its alignment descriptor is read off
    the matched count (more than 3: excellent; more than 1: good; else
    limited); its technical descriptor is strong for more than 3 matches
    and adequate otherwise, and never limited. *)
Theorem fallback_narrative (grammar_errors : Z) (n_matched : nat) :
  (∃ narrative : nat → string → string, ∀ ge n,
      fallback ge n = narrative n (fallback_verdict ge n))
  ∧ (∀ transcript matched missing,
       get_llm_judgment Absent transcript grammar_errors matched missing
       = Returns (VText (fallback grammar_errors (size matched))))
  ∧ String.prefix
      "The candidate demonstrated professional communication abilities. "
      (fallback grammar_errors n_matched) = true
  ∧ contains
      ("Experience alignment is "
       +:+ (if (3 <? n_matched)%nat then "excellent"
            else if (1 <? n_matched)%nat then "good" else "limited")
       +:+ ". ")
      (fallback grammar_errors n_matched) = true
  ∧ contains
      ("Technical competency appears "
       +:+ (if (3 <? n_matched)%nat then "strong" else "adequate")
       +:+ "." +:+ nl)
      (fallback grammar_errors n_matched) = true
  ∧ contains "appears limited" (fallback grammar_errors n_matched) = false.
Proof.
  split.
  { exists (λ n v,
      "The candidate demonstrated professional communication abilities."
      +:+ " Experience alignment is "
      +:+ (if (3 <? n)%nat then "excellent"
           else if (1 <? n)%nat then "good" else "limited")
      +:+ ". Technical competency appears "
      +:+ (if (3 <? n)%nat then "strong" else "adequate")
      +:+ "." +:+ nl +:+ nl +:+ "VERDICT: " +:+ v).
    reflexivity. }
  split; [reflexivity|].
  fallback_shapes grammar_errors n_matched;
    repeat split; vm_compute; reflexivity.
Qed.

End JudgmentFacts.

(** ** A small program logic for drawing code *)

Module Layout.
Import Entities PyStr PyStrFacts Report.
Local Open Scope canvas_scope.

Lemma draws_ret {A : Type} (a : A) (Q : A → Prop) : Q a → draws (ret a) Q.
Proof. intros H. split; [constructor|exact H]. Qed.

Lemma draws_bind {A B : Type} (m : canvas A) (k : A → canvas B)
    (Q : A → Prop) (R : B → Prop) :
  draws m Q → (∀ a, Q a → draws (k a) R) → draws (bind m k) R.
Proof.
  intros [Hm Hq] Hk. destruct (Hk _ Hq) as [Hs Hr].
  split; [apply Forall_app; split; assumption|exact Hr].
Qed.

Lemma draws_emit (o : op) (Q : unit → Prop) :
  above_margin o → Q tt → draws (emit o) Q.
Proof. intros Ho Hq. split; [repeat constructor; exact Ho|exact Hq]. Qed.

Lemma draws_weaken {A : Type} (m : canvas A) (Q R : A → Prop) :
  draws m Q → (∀ a, Q a → R a) → draws m R.
Proof. intros [Hs Hq] H. split; [exact Hs|apply H, Hq]. Qed.

(** A page break test leaves the cursor at or above its limit, never
    lowers it, and keeps it at or below the top margin. *)
Lemma draws_page_break (limit y : Z) :
  limit <= top_margin → y <= top_margin →
  draws (page_break_below limit y)
    (λ y', limit <= y' ∧ y <= y' ∧ y' <= top_margin
           ∧ (y < limit → y' = top_margin) ∧ (limit <= y → y' = y)).
Proof.
  unfold page_break_below, top_margin. intros Hl Hy.
  destruct (Z.ltb_spec y limit).
  - split; [repeat constructor|]. simpl. lia.
  - apply draws_ret. lia.
Qed.

Lemma draws_page_break_any (limit y : Z) :
  limit <= top_margin →
  draws (page_break_below limit y) (λ y', limit <= y').
Proof.
  unfold page_break_below, top_margin. intros Hl.
  destruct (Z.ltb_spec y limit).
  - split; [repeat constructor|]. simpl. lia.
  - apply draws_ret. lia.
Qed.

Lemma draws_flush_line (x size : Z) (line : string) (y : Z) :
  line = "" ∨ bottom_margin <= y →
  draws (flush_line x size line y)
    (λ y', y' = if String.eqb line "" then y else y - (size + 3)).
Proof.
  unfold flush_line. intros H.
  destruct (String.eqb_spec line "") as [->|Hne].
  - apply draws_ret. reflexivity.
  - destruct H as [H|H]; [contradiction|].
    split; [repeat constructor; exact H|reflexivity].
Qed.

(** Inside the wrapping loop a line is only ever drawn at a height that
    the page-break test has admitted: on entry either no line is pending
    or the cursor is above the margin, and so it is on exit. *)
Lemma draws_wrap_loop (x size max_width : Z) (words : list string) :
  ∀ (line : string) (y : Z),
    line = "" ∨ bottom_margin <= y →
    draws (wrap_loop x size max_width words line y)
      (λ r, r.1 = "" ∨ bottom_margin <= r.2).
Proof.
  induction words as [|word rest IH]; intros line y Hinv.
  - apply draws_ret. exact Hinv.
  - cbn [wrap_loop].
    eapply draws_bind with (Q := λ _, True).
    + destruct (fits _ size max_width).
      * apply draws_ret. exact I.
      * eapply draws_bind; [apply draws_flush_line, Hinv|].
        intros y1 _. apply draws_ret. exact I.
    + intros [line1 y1] _.
      eapply draws_bind; [apply (draws_page_break_any 50 y1); unfold top_margin, h; lia|].
      intros y2 Hy2. apply IH. right. exact Hy2.
Qed.

(** Whatever the cursor, the text, the size and the indent, [wrap_text]
    draws nothing below the bottom margin. *)
Lemma draws_wrap_text_any (y : Z) (text : string) (size indent : Z) :
  draws (wrap_text y text size indent) (λ _, True).
Proof.
  unfold wrap_text.
  eapply draws_bind; [apply draws_wrap_loop; left; reflexivity|].
  intros [line y1] H. simpl in H.
  eapply draws_weaken; [apply draws_flush_line, H|trivial].
Qed.

(** *** The cursor after [wrap_text] *)

Lemma lines_from_length (size max_width : Z) (words : list string) :
  ∀ line,
    (length (lines_from size max_width words line)
     ≤ length words + (if String.eqb line "" then 0 else 1))%nat.
Proof.
  induction words as [|word rest IH]; intros line; cbn [lines_from].
  - destruct (String.eqb line ""); simpl; lia.
  - destruct (fits _ size max_width).
    + specialize (IH (strip (line +:+ " " +:+ word))).
      destruct (String.eqb (strip _) ""); simpl in *;
        destruct (String.eqb line ""); lia.
    + rewrite length_app. specialize (IH word).
      destruct (String.eqb word ""), (String.eqb line ""); simpl in *; lia.
Qed.

Lemma wrap_lines_length (text : string) (size indent : Z) :
  (length (wrap_lines text size indent) ≤ length (split text))%nat.
Proof.
  unfold wrap_lines.
  pose proof (lines_from_length size (w - 80 - indent) (split text) "") as H.
  simpl in H. lia.
Qed.

(** The value of the loop followed by the last [flush_line]: each drawn
    line lowers the cursor by [size + 3], a page break only raises it. *)
Lemma wrap_loop_cursor (x size max_width : Z) (words : list string) :
  0 <= size + 3 →
  ∀ (line : string) (y : Z),
    y <= top_margin →
    let r := fst (wrap_loop x size max_width words line y) in
    let y' := fst (flush_line x size r.1 r.2) in
    y - (size + 3) * Z.of_nat (length (lines_from size max_width words line))
      <= y' <= top_margin.
Proof.
  intros Hsize. induction words as [|word rest IH]; intros line y Hy.
  - cbn. unfold flush_line.
    destruct (String.eqb line ""); cbn; lia.
  - cbn [wrap_loop lines_from].
    destruct (fits _ size max_width).
    + cbn [bind ret fst snd].
      destruct (draws_page_break 50 y) as [_ Hb];
        [unfold top_margin, h; lia|exact Hy|].
      set (y2 := fst (page_break_below 50 y)) in *.
      specialize (IH (strip (line +:+ " " +:+ word)) y2 ltac:(lia)).
      cbn zeta in IH. lia.
    + cbn [bind ret fst snd].
      set (y1 := fst (flush_line x size line y)).
      assert (Hy1 : y1 = if String.eqb line "" then y else y - (size + 3)).
      { subst y1. unfold flush_line. destruct (String.eqb line ""); reflexivity. }
      destruct (draws_page_break 50 y1) as [_ Hb];
        [unfold top_margin, h; lia|destruct (String.eqb line ""); lia|].
      set (y2 := fst (page_break_below 50 y1)) in *.
      specialize (IH word y2 ltac:(lia)). cbn zeta in IH.
      rewrite length_app.
      destruct (String.eqb line ""); cbn [length] in *; lia.
Qed.

(** [wrap_text] entered at or below the top margin: nothing is drawn below
    the bottom margin, and the cursor comes out at most one line height
    per wrapped line lower, and never above the top margin. *)
Lemma draws_wrap_text (y : Z) (text : string) (size indent : Z) :
  0 <= size + 3 → y <= top_margin →
  draws (wrap_text y text size indent)
    (λ y', y - (size + 3) * Z.of_nat (length (wrap_lines text size indent))
             <= y' <= top_margin).
Proof.
  intros Hsize Hy. split; [apply draws_wrap_text_any|].
  unfold wrap_text, wrap_lines.
  pose proof (wrap_loop_cursor (40 + indent) size (w - 80 - indent)
                (split text) Hsize "" y Hy) as H.
  cbn zeta in H.
  destruct (wrap_loop (40 + indent) size (w - 80 - indent) (split text) "" y)
    as [[line y1] ops] eqn:E.
  cbn [bind fst snd] in *. exact H.
Qed.

(** *** The blocks of the document *)

Ltac margins := cbn; unfold bottom_margin, top_margin, h, w in *; lia.

Ltac draw_step :=
  first
    [ apply draws_ret
    | eapply draws_bind with (Q := λ _, True);
      [ apply draws_emit; [margins|exact I] | intros _ _ ] ].

Lemma draws_section_header (y : Z) (title : string) :
  55 <= y →
  draws (draw_section_header y title) (λ y', y' = y - 25).
Proof.
  intros Hy. unfold draw_section_header. do 2 draw_step. draw_step. reflexivity.
Qed.

Lemma draws_colored_box (y : Z) (color : rgb) (text : string) :
  75 <= y →
  draws (draw_colored_box y color text) (λ y', y' = y - 30).
Proof.
  intros Hy. unfold draw_colored_box. do 2 draw_step. draw_step. reflexivity.
Qed.

Section Blocks.

Variable env : ambient.
Variables (grammar_errors : Z) (entities matched cv_only : gset entity).
Variables (llm_summary candidate_name position : string).

Lemma draws_header_block :
  draws (header_block env candidate_name position) (λ y, y = 672).
Proof. unfold header_block. do 4 draw_step. draw_step. reflexivity. Qed.

Lemma draws_verdict_box (y : Z) :
  75 <= y →
  draws (verdict_box llm_summary y) (λ y', y' = y - 40).
Proof.
  intros Hy. unfold verdict_box.
  destruct (verdict_banner llm_summary) as [verdict_text color].
  eapply draws_bind; [apply draws_colored_box, Hy|].
  intros y1 ->. apply draws_ret. lia.
Qed.

Lemma draws_quick_stats (y : Z) :
  145 <= y →
  draws (quick_stats env grammar_errors entities matched cv_only y)
    (λ y', y' = y - 95).
Proof.
  intros Hy. unfold quick_stats.
  eapply draws_bind; [apply draws_section_header; lia|].
  intros y1 ->. do 4 draw_step. draw_step. lia.
Qed.

Lemma comm_words : (length (split (comm grammar_errors)) ≤ 17)%nat.
Proof.
  unfold comm.
  destruct (grammar_errors <? 3); [vm_compute; lia|].
  destruct (grammar_errors <? 8); [|destruct (grammar_errors <? 12)];
    (etransitivity; [apply split_template_length|vm_compute; lia]).
Qed.

Lemma exp_words : (length (split (exp env matched cv_only)) ≤ 16)%nat.
Proof.
  unfold exp.
  destruct (alignment_above_75 env);
    [etransitivity; [apply split_template_length|vm_compute; lia]|].
  destruct (alignment_above_50 env);
    (etransitivity; [apply split_template2_length|vm_compute; lia]).
Qed.

(** The first page holds the three assessments whatever the numbers:
    each paragraph has at most as many lines as words. *)
Lemma draws_detailed_assessment (y : Z) :
  537 <= y <= top_margin →
  draws (detailed_assessment env grammar_errors matched cv_only y)
    (λ y', 150 <= y' <= top_margin).
Proof.
  intros Hy. unfold detailed_assessment.
  eapply draws_bind; [apply draws_section_header; lia|].
  intros y0 ->. draw_step.
  eapply draws_bind; [apply draws_wrap_text; margins|].
  intros y1 Hy1. cbn beta in Hy1.
  pose proof (wrap_lines_length (comm grammar_errors) 9 20).
  pose proof comm_words.
  draw_step.
  eapply draws_bind; [apply draws_wrap_text; margins|].
  intros y2 Hy2. cbn beta in Hy2.
  pose proof (wrap_lines_length (exp env matched cv_only) 9 20).
  pose proof exp_words.
  draw_step.
  eapply draws_bind; [apply draws_wrap_text; margins|].
  intros y3 Hy3. cbn beta in Hy3.
  eapply draws_weaken;
    [apply (draws_page_break 150 (y3 - 20)); margins|].
  cbn beta. intros y4 Hy4. margins.
Qed.

Lemma draws_improvements_loop (items : list (string * string * string)) :
  ∀ (i y : Z), y <= top_margin →
    draws (improvements_loop i items y) (λ y', y' <= top_margin).
Proof.
  induction items as [|[[area current] action] rest IH]; intros i y Hy.
  - apply draws_ret. exact Hy.
  - cbn [improvements_loop].
    eapply draws_bind; [apply (draws_page_break 100 y); margins|].
    cbn beta. intros y1 Hy1. do 2 draw_step.
    eapply draws_bind; [apply draws_wrap_text; margins|].
    intros y2 Hy2. cbn beta in Hy2. apply IH. lia.
Qed.

Lemma draws_improvement_areas (y : Z) :
  55 <= y <= top_margin →
  draws (improvement_areas grammar_errors matched cv_only y)
    (λ y', y' <= top_margin).
Proof.
  intros Hy. unfold improvement_areas.
  eapply draws_bind; [apply draws_section_header; lia|].
  intros y1 ->. apply draws_improvements_loop. lia.
Qed.

(** Each of the fifteen recommendation texts fits on one line. *)
Lemma recommendations_one_line :
  Forall (λ rec, length (wrap_lines rec 10 0) = 1%nat)
    (recommendations llm_summary).
Proof.
  unfold recommendations.
  destruct (says_hire llm_summary); [|destruct (says_reject llm_summary)];
    repeat constructor.
Qed.

Lemma draws_recommendations_loop (recs : list string) :
  Forall (λ rec, length (wrap_lines rec 10 0) = 1%nat) recs →
  ∀ y, y <= top_margin →
    draws (recommendations_loop recs y)
      (λ y', y - 18 * Z.of_nat (length recs) <= y' <= top_margin).
Proof.
  induction 1 as [|rec rest Hrec Hrest IH]; intros y Hy.
  - apply draws_ret. cbn. lia.
  - cbn [recommendations_loop].
    eapply draws_bind; [apply (draws_page_break 50 y); margins|].
    cbn beta. intros y1 Hy1.
    eapply draws_bind; [apply draws_wrap_text; margins|].
    intros y2 Hy2. cbn beta in Hy2. rewrite Hrec in Hy2.
    eapply draws_weaken; [apply IH; lia|].
    cbn beta. intros y3 Hy3. cbn [length]. lia.
Qed.

Lemma draws_hr_recommendations (y : Z) :
  y <= top_margin →
  draws (hr_recommendations llm_summary y) (λ y', 65 <= y' <= top_margin).
Proof.
  intros Hy. unfold hr_recommendations.
  eapply draws_bind; [apply (draws_page_break 200 y); margins|].
  cbn beta. intros y1 Hy1.
  eapply draws_bind; [apply draws_section_header; lia|].
  intros y2 ->.
  eapply draws_bind;
    [apply draws_recommendations_loop;
     [apply recommendations_one_line|lia]|].
  cbn beta. intros y3 Hy3. apply draws_ret.
  assert (length (recommendations llm_summary) = 5%nat) as Hlen.
  { unfold recommendations.
    destruct (says_hire llm_summary); [|destruct (says_reject llm_summary)];
      reflexivity. }
  rewrite Hlen in Hy3. lia.
Qed.

Lemma draws_next_steps_box (y : Z) :
  55 <= y <= top_margin →
  draws (next_steps_box llm_summary y) (λ _, True).
Proof.
  intros Hy. unfold next_steps_box.
  eapply draws_bind; [apply draws_section_header; lia|].
  intros y1 ->. apply draws_wrap_text_any.
Qed.

Lemma draws_body :
  draws (body env grammar_errors entities matched cv_only
           llm_summary candidate_name position) (λ _, True).
Proof.
  unfold body.
  eapply draws_bind; [apply draws_header_block|]. intros y0 ->.
  eapply draws_bind; [apply draws_verdict_box; lia|]. intros y1 ->.
  eapply draws_bind; [apply draws_quick_stats; lia|]. intros y2 ->.
  eapply draws_bind; [apply draws_detailed_assessment; margins|].
  cbn beta. intros y3 Hy3.
  eapply draws_bind; [apply draws_improvement_areas; lia|].
  cbn beta. intros y4 Hy4.
  eapply draws_bind; [apply draws_hr_recommendations; lia|].
  cbn beta. intros y5 Hy5.
  apply draws_next_steps_box. lia.
Qed.

End Blocks.

(** *** The lines of [wrap_text] *)

Lemma drawn_texts_app (a b : list op) :
  drawn_texts (a ++ b) = drawn_texts a ++ drawn_texts b.
Proof. unfold drawn_texts. apply flat_map_app. Qed.

Lemma drawn_texts_page_break (limit y : Z) :
  drawn_texts (snd (page_break_below limit y)) = [].
Proof. unfold page_break_below. destruct (y <? limit); reflexivity. Qed.

Lemma drawn_texts_flush_line (x size : Z) (line : string) (y : Z) :
  drawn_texts (snd (flush_line x size line y))
  = if String.eqb line "" then [] else [slice_to 110 line].
Proof. unfold flush_line. destruct (String.eqb line ""); reflexivity. Qed.

(** The loop and the last flush draw the lines of [lines_from], each cut
    to 110 characters, in order. *)
Lemma drawn_texts_wrap_loop (x size max_width : Z) (words : list string) :
  ∀ (line : string) (y : Z),
    let r := wrap_loop x size max_width words line y in
    drawn_texts (snd r)
      ++ drawn_texts (snd (flush_line x size (fst r).1 (fst r).2))
    = map (slice_to 110) (lines_from size max_width words line).
Proof.
  induction words as [|word rest IH]; intros line y.
  - cbn. rewrite drawn_texts_flush_line.
    destruct (String.eqb line ""); reflexivity.
  - cbn [wrap_loop lines_from]. cbn zeta.
    destruct (fits _ size max_width).
    + cbn [bind ret fst snd]. rewrite app_nil_l, drawn_texts_app.
      rewrite drawn_texts_page_break, app_nil_l. apply IH.
    + cbn [bind ret fst snd].
      rewrite app_nil_r, !drawn_texts_app, drawn_texts_page_break.
      rewrite drawn_texts_flush_line, app_nil_l, <- app_assoc, IH.
      rewrite map_app. destruct (String.eqb line ""); reflexivity.
  Qed.

Lemma drawn_texts_wrap_text (y : Z) (text : string) (size indent : Z) :
  drawn_texts (snd (wrap_text y text size indent))
  = map (slice_to 110) (wrap_lines text size indent).
Proof.
  unfold wrap_text, wrap_lines.
  pose proof (drawn_texts_wrap_loop (40 + indent) size (w - 80 - indent)
                (split text) "" y) as H.
  cbn zeta in H.
  destruct (wrap_loop (40 + indent) size (w - 80 - indent) (split text) "" y)
    as [[line y1] ops].
  cbn [bind fst snd] in *. rewrite drawn_texts_app. exact H.
Qed.

(** The lines joined by single spaces are the pending line and the words
    joined by single spaces: line breaking moves no word and loses none. *)
Lemma lines_from_join (size max_width : Z) (words : list string) :
  Forall is_word words →
  ∀ line, line = "" ∨ starts_clean line = true →
    join " " (lines_from size max_width words line)
    = join " " ((if String.eqb line "" then [] else [line]) ++ words).
Proof.
  induction 1 as [|word rest Hword Hrest IH]; intros line Hline.
  - cbn [lines_from]. rewrite app_nil_r. reflexivity.
  - cbn [lines_from].
    assert (Hw : word = "" ∨ starts_clean word = true)
      by (right; apply word_starts_clean, Hword).
    assert (Hwne : String.eqb word "" = false)
      by (apply String.eqb_neq, Hword).
    destruct Hline as [->|Hline].
    + rewrite (strip_first_word word Hword). cbn [String.eqb app].
      specialize (IH word Hw). rewrite Hwne in IH.
      destruct (fits word size max_width); exact IH.
    + assert (Hlne : String.eqb line "" = false)
        by (destruct line; [discriminate|reflexivity]).
      rewrite (strip_line_word line word Hline Hword), Hlne.
      destruct (fits _ size max_width).
      * rewrite IH by (right; apply starts_clean_app, Hline).
        assert (Hne2 : String.eqb (line +:+ " " +:+ word) "" = false)
          by (destruct line; [discriminate|reflexivity]).
        rewrite Hne2. cbn [app]. destruct rest as [|w2 rest].
        -- reflexivity.
        -- rewrite !join_cons by discriminate.
           rewrite !sapp_assoc. reflexivity.
      * specialize (IH word Hw). rewrite Hwne in IH. cbn [app] in *.
        rewrite (join_cons " " line (word :: rest)) by discriminate.
        rewrite (join_cons " " line (lines_from size max_width rest word));
          [rewrite IH; reflexivity|].
        intros E. rewrite E in IH. symmetry in IH.
        apply (join_nonempty " " word rest) in IH; [exact IH|apply Hword].
Qed.

End Layout.

(** ** The report: verdict selection, page breaks, wrapping, outcome *)

Module ReportFacts.
Import Entities PyStr PyStrFacts Judgment Report Layout.

(** The banner and the recommendations are chosen by the verdict the report
    reads off the judgment, one list for each of the three verdicts; the
    next steps are not: REVIEW and REJECT share one text. *)
Lemma selection_by_report_verdict (llm_summary : string) :
  verdict_banner llm_summary
  = match report_verdict llm_summary with
    | HIRE => ("VERDICT: " +:+ tick +:+ " HIRE", green)
    | REJECT => ("VERDICT: " +:+ cross +:+ " REJECT", red)
    | REVIEW => ("VERDICT: " +:+ diamond +:+ " FURTHER REVIEW", amber)
    end
  ∧ recommendations llm_summary
    = match report_verdict llm_summary with
      | HIRE => hire_recommendations
      | REJECT => reject_recommendations
      | REVIEW => review_recommendations
      end
  ∧ next_steps llm_summary
    = match report_verdict llm_summary with
      | HIRE => hire_steps
      | REJECT | REVIEW => rejection_steps
      end.
Proof.
  unfold verdict_banner, recommendations, next_steps, report_verdict.
  destruct (says_hire llm_summary), (says_reject llm_summary);
    repeat split; reflexivity.
Qed.

(** C5. The next-steps list has two branches where the banner and the
    recommendations have three. For the fallback judgment of 7 errors and
    1 match, whose verdict line is [VERDICT: MAYBE], the banner is the
    amber FURTHER REVIEW banner and the recommendations are the conditional
    review list, but the next steps are the steps of a rejection, the same
    text as for the REJECT judgment of 20 errors. *)
Theorem next_steps_of_review_are_rejection_steps :
  let review := fallback 7 1 in
  let reject := fallback 20 0 in
  verdict_line review = Some "VERDICT: MAYBE"
  ∧ verdict_banner review = ("VERDICT: " +:+ diamond +:+ " FURTHER REVIEW", amber)
  ∧ recommendations review = review_recommendations
  ∧ next_steps review = rejection_steps
  ∧ verdict_line reject = Some "VERDICT: REJECT"
  ∧ verdict_banner reject = ("VERDICT: " +:+ cross +:+ " REJECT", red)
  ∧ recommendations reject = reject_recommendations
  ∧ next_steps reject = next_steps review
  ∧ String.prefix "1. Send professional rejection email" (next_steps review) = true.
Proof. repeat split; vm_compute; reflexivity. Qed.

(** A paragraph entered with the cursor below the bottom margin: the page
    break comes first, and the rest is the paragraph drawn from the top
    margin. *)
Lemma wrap_text_below_margin (y : Z) (text : string) (size indent : Z) :
  y < bottom_margin → split text ≠ [] →
  wrap_text y text size indent
  = (fst (wrap_text top_margin text size indent),
     ShowPage :: snd (wrap_text top_margin text size indent)).
Proof.
  unfold bottom_margin, top_margin, h. intros Hy Hwords.
  unfold wrap_text. destruct (split text) as [|word rest]; [contradiction|].
  cbn [wrap_loop].
  assert (Hlow : page_break_below 50 y = (792 - 40, [ShowPage])).
  { unfold page_break_below, h. destruct (Z.ltb_spec y 50); [reflexivity|lia]. }
  assert (Htop : page_break_below 50 (792 - 40) = (792 - 40, [])).
  { reflexivity. }
  assert (Hflush : ∀ y0, flush_line (40 + indent) size "" y0 = (y0, []))
    by reflexivity.
  destruct (fits (strip ("" +:+ " " +:+ word)) size (w - 80 - indent));
    unfold bind, ret; cbn beta iota zeta delta [fst snd];
    rewrite ?Hflush; cbn beta iota zeta delta [fst snd];
    rewrite Hlow, Htop; cbn beta iota zeta delta [fst snd app];
    reflexivity.
Qed.

(** C6, as the code has it. For every input, no operation placed at the
    layout cursor lands below the bottom margin of 50: not in the body of
    the document, and not in [wrap_text] whatever cursor, text, size and
    indent it is given. A paragraph that is entered with the cursor below
    the margin starts with the page break and is then drawn from the top
    margin; and wherever the code tests the cursor against a limit, a
    cursor below the limit emits a page break and is reset to the top
    margin. The cursor itself is not kept above the margin: the statement
    is on what is drawn. The footer is not placed at the cursor: it is
    drawn at the fixed heights 25 and 15. *)
Theorem page_break_invariant (env : ambient) (grammar_errors : Z)
    (entities matched cv_only : gset entity)
    (llm_summary candidate_name position : string) :
  Forall above_margin
    (snd (body env grammar_errors entities matched cv_only
            llm_summary candidate_name position))
  ∧ (∀ y text size indent,
       Forall above_margin (snd (wrap_text y text size indent)))
  ∧ (∀ y text size indent,
       y < bottom_margin → split text ≠ [] →
       wrap_text y text size indent
       = (fst (wrap_text top_margin text size indent),
          ShowPage :: snd (wrap_text top_margin text size indent)))
  ∧ (∀ limit y,
       page_break_below limit y
       = if y <? limit then (top_margin, [ShowPage]) else (y, []))
  ∧ drawing env grammar_errors entities matched cv_only
      llm_summary candidate_name position
    = snd (body env grammar_errors entities matched cv_only
             llm_summary candidate_name position)
      ++ [DrawString 40 25 "CONFIDENTIAL - For HR Use Only";
          DrawString 40 15 ("Assessment ID: " +:+ assessment_id env);
          Save].
Proof.
  split; [apply draws_body|].
  split; [intros y text size indent; apply draws_wrap_text_any|].
  split; [intros y text size indent; apply wrap_text_below_margin|].
  split; [intros limit y; unfold page_break_below;
          destruct (y <? limit); reflexivity|].
  reflexivity.
Qed.

Lemma page_break_invariant_witness :
  wrap_text 36 rejection_steps 9 15
  = (728,
     [ShowPage;
      DrawString 55 752 "1. Send professional rejection email 2. Provide constructive feedback 3. Recommend language/skill training 4. ";
      DrawString 55 740 "contact for future roles 5. Schedule 6-month follow-up"]).
Proof.
  refine (eq_trans
            (proj1 (proj2 (proj2 (page_break_invariant plain_env 0 ∅ ∅ ∅
                                    (fallback 0 0) "John Doe" "Engineer")))
               36 rejection_steps 9 15 _ _) _).
  - unfold bottom_margin. lia.
  - vm_compute. discriminate.
  - vm_compute. reflexivity.
Defined.

(** C6, as stated, fails. With no error, nothing matched and one CV
    entity unmentioned, the body reaches the NEXT STEPS header with the
    cursor at 71 and no page break so far; writing the header lowers the
    cursor to 46, below the margin, and no page break precedes that write.
    The page break comes after it, inside the paragraph that follows. *)
Lemma cursor_below_margin_unbroken :
  let before :=
    body_before_next_steps plain_env 0 ∅ ∅ {[ ("Java", "SKILL") ]}
      (fallback 0 0) "John Doe" "Engineer" in
  let header := draw_section_header (fst before) (pictograph +:+ " NEXT STEPS") in
  fst before = 71
  ∧ fst header = 46
  ∧ page_breaks (snd before ++ snd header) = 0%nat
  ∧ map (λ o, match o with ShowPage => true | _ => false end)
      (snd (next_steps_box (fallback 0 0) (fst before)))
    = [false; false; true; false; false]
  ∧ ¬ (fst header < bottom_margin →
       (0 < page_breaks (snd before ++ snd header))%nat).
Proof.
  cbn zeta.
  assert (H1 : fst (body_before_next_steps plain_env 0 ∅ ∅
                      {[ ("Java", "SKILL") ]} (fallback 0 0)
                      "John Doe" "Engineer") = 71)
    by (vm_compute; reflexivity).
  rewrite H1.
  assert (H2 : page_breaks
                 (snd (body_before_next_steps plain_env 0 ∅ ∅
                         {[ ("Java", "SKILL") ]} (fallback 0 0)
                         "John Doe" "Engineer")
                  ++ snd (draw_section_header 71 (pictograph +:+ " NEXT STEPS")))
               = 0%nat)
    by (vm_compute; reflexivity).
  rewrite H2.
  split; [reflexivity|]. split; [reflexivity|]. split; [reflexivity|].
  split; [vm_compute; reflexivity|].
  intros H. unfold bottom_margin in H. cbn in H.
  specialize (H ltac:(lia)). lia.
Qed.

(** C7. For every text, size, indent and cursor, the texts that
    [wrap_text] draws are its lines, in order, each cut to its first 110
    characters. The lines joined by single spaces are the words of the
    text joined by single spaces, and splitting them again gives the words
    of the text: no word is dropped, repeated or moved. A line of at most
    110 characters is drawn whole. *)
Theorem wrap_text_keeps_words (y : Z) (text : string) (size indent : Z) :
  let lines := wrap_lines text size indent in
  drawn_texts (snd (wrap_text y text size indent)) = map (slice_to 110) lines
  ∧ join " " lines = join " " (split text)
  ∧ split (join " " lines) = split text
  ∧ Forall (λ line,
              (slice_to 110 line = line ∧ (String.length line ≤ 110)%nat)
              ∨ ((110 < String.length line)%nat
                 ∧ String.length (slice_to 110 line) = 110%nat
                 ∧ String.prefix (slice_to 110 line) line = true))
      lines.
Proof.
  intros lines.
  assert (Hjoin : join " " lines = join " " (split text)).
  { subst lines. unfold wrap_lines.
    rewrite (lines_from_join size (w - 80 - indent) (split text)
               (split_words text) "") by (left; reflexivity).
    reflexivity. }
  split; [apply drawn_texts_wrap_text|].
  split; [exact Hjoin|].
  split; [rewrite Hjoin; apply split_join, split_words|].
  apply Forall_forall. intros line _. apply slice_to_spec.
Qed.

(** C8, as the code has it. [generate_beautiful_pdf] never raises. It
    reports success exactly when the canvas carried out every operation,
    the save included, the file exists afterwards and its size could be
    read; the size itself is not tested. When a drawing operation or the
    save raises, it reports failure. *)
Theorem generate_beautiful_pdf_outcome (wd : world) (env : ambient)
    (grammar_errors : Z) (entities matched cv_only : gset entity)
    (llm_summary candidate_name position : string) :
  let ops := drawing env grammar_errors entities matched cv_only
               llm_summary candidate_name position in
  let result := generate_beautiful_pdf wd env grammar_errors entities
                  matched cv_only llm_summary candidate_name position in
  (∃ success, result = Returns success)
  ∧ (result = Returns true
     ↔ execute wd ops = Returns tt
       ∧ path_exists wd = true
       ∧ ∃ size, getsize wd = Returns size)
  ∧ (execute wd ops = Raises → result = Returns false).
Proof.
  intros ops result. subst result.
  unfold generate_beautiful_pdf, try_generate. fold ops.
  destruct (execute wd ops) as [[]|], (path_exists wd),
    (getsize wd) as [size|]; repeat split;
    try (eexists; reflexivity); try discriminate; try reflexivity;
    try (intros (? & ? & ? & ?); discriminate);
    try (intros (? & ? & ?); discriminate).
Qed.

Lemma generate_beautiful_pdf_outcome_witness :
  generate_beautiful_pdf
    {| execute := λ _, Raises; path_exists := true; getsize := Returns 1834 |}
    plain_env 2 ∅ ∅ ∅ (fallback 2 0) "John Doe" "Engineer"
  = Returns false.
Proof.
  apply (generate_beautiful_pdf_outcome
           {| execute := λ _, Raises; path_exists := true;
              getsize := Returns 1834 |}
           plain_env 2 ∅ ∅ ∅ (fallback 2 0) "John Doe" "Engineer").
  reflexivity.
Defined.

(** C8, as stated, fails: with a save that leaves an existing file of size
    0 the function reports success although the artifact is empty. *)
Lemma generate_beautiful_pdf_empty_file :
  ¬ (generate_beautiful_pdf empty_file_world plain_env 2 ∅ ∅ ∅
       (fallback 2 0) "John Doe" "Engineer" = Returns true
     ↔ path_exists empty_file_world = true
       ∧ ∃ size, getsize empty_file_world = Returns size ∧ 0 < size).
Proof.
  intros [H _]. destruct (H eq_refl) as (_ & size & Hsize & Hpos).
  injection Hsize as <-. lia.
Qed.

End ReportFacts.

(** ** Further facts on the string operations *)

Module PyStrMore.
Import PyStr PyStrFacts.

Lemma length_sapp (a b : string) :
  String.length (a +:+ b) = (String.length a + String.length b)%nat.
Proof.
  induction a as [|c a IH]; [reflexivity|].
  rewrite sapp_cons. simpl. rewrite IH. reflexivity.
Qed.

Lemma len_sapp (a b : string) : len (a +:+ b) = len a + len b.
Proof. unfold len. rewrite length_sapp. lia. Qed.

Lemma upper_sapp (a b : string) : upper (a +:+ b) = upper a +:+ upper b.
Proof.
  induction a as [|c a IH]; [reflexivity|].
  rewrite sapp_cons. simpl. rewrite IH. reflexivity.
Qed.

(** *** Stripping twice *)

Lemma lstrip_clean (s : string) :
  lstrip s = "" ∨ starts_clean (lstrip s) = true.
Proof.
  induction s as [|c s IH]; [left; reflexivity|].
  simpl. destruct (is_space c) eqn:Hc; [exact IH|].
  right. simpl. rewrite Hc. reflexivity.
Qed.

Lemma rstrip_idempotent (s : string) : rstrip (rstrip s) = rstrip s.
Proof.
  induction s as [|c s IH]; [reflexivity|].
  simpl. destruct (rstrip s) as [|d r] eqn:E.
  - destruct (is_space c) eqn:Hc; [reflexivity|]. simpl. rewrite Hc. reflexivity.
  - change (rstrip (String c (String d r))) with
      (match rstrip (String d r) with
       | EmptyString => if is_space c then EmptyString else String c EmptyString
       | r' => String c r'
       end).
    rewrite IH. reflexivity.
Qed.

Lemma rstrip_keeps_start (s : string) :
  starts_clean s = true → starts_clean (rstrip s) = true.
Proof.
  destruct s as [|c s]; [discriminate|]. simpl. intros Hc.
  destruct (rstrip s).
  - apply negb_true_iff in Hc. rewrite Hc. simpl. rewrite Hc. reflexivity.
  - exact Hc.
Qed.

Lemma strip_idempotent (s : string) : strip (strip s) = strip s.
Proof.
  unfold strip. destruct (lstrip_clean s) as [E|E].
  - rewrite E. reflexivity.
  - rewrite (lstrip_starts_clean _ (rstrip_keeps_start _ E)).
    apply rstrip_idempotent.
Qed.

(** *** Texts without words *)

Lemma split_from_blank (s : string) :
  Forall (λ c, is_space c = true) (list_ascii_of_string s) →
  split_from "" s = [].
Proof.
  induction s as [|c s IH]; [reflexivity|].
  simpl. intros H. apply Forall_cons in H as [Hc Hs].
  rewrite Hc. simpl. apply IH, Hs.
Qed.

(** *** Pieces of a text cut at a separator *)

Lemma split_on_sapp (sep : ascii) (a b : string) :
  split_on sep (a +:+ String sep b) = split_on sep a ++ split_on sep b.
Proof.
  induction a as [|c a IH].
  - rewrite sapp_nil_l. simpl. rewrite Ascii.eqb_refl. reflexivity.
  - rewrite sapp_cons. simpl. rewrite IH.
    destruct (Ascii.eqb c sep); [reflexivity|].
    pose proof (split_on_nonempty sep a) as Hne.
    destruct (split_on sep a) as [|l ls]; [contradiction|reflexivity].
Qed.

Lemma prefix_sapp_mono (sub a b : string) :
  String.prefix sub a = true → String.prefix sub (a +:+ b) = true.
Proof.
  revert a. induction sub as [|x sub IH]; intros a H; [apply prefix_nil|].
  destruct a as [|c a]; [discriminate|].
  rewrite sapp_cons. simpl in *.
  destruct (ascii_dec x c); [apply IH, H|discriminate].
Qed.

Lemma contains_sapp_l (sub a b : string) :
  contains sub a = true → contains sub (a +:+ b) = true.
Proof.
  induction a as [|c a IH]; intros H.
  - rewrite contains_unfold in H.
    destruct (String.prefix sub "") eqn:Hp; [|discriminate].
    apply contains_of_prefix. apply (prefix_sapp_mono sub "" b Hp).
  - rewrite contains_unfold in H.
    destruct (String.prefix sub (String c a)) eqn:Hp.
    + apply contains_of_prefix, prefix_sapp_mono, Hp.
    + rewrite sapp_cons. apply contains_cons, IH, H.
Qed.

(** The first piece is a prefix of the text. *)
Lemma first_piece_prefix (sep : ascii) (s : string) :
  ∃ rest, s = hd EmptyString (split_on sep s) +:+ rest.
Proof.
  induction s as [|c s [rest IH]]; [exists ""; reflexivity|].
  simpl. destruct (Ascii.eqb c sep); [exists (String c s); reflexivity|].
  destruct (split_on sep s) as [|l ls]; simpl in *.
  - exists s. reflexivity.
  - exists rest. rewrite sapp_cons, <- IH. reflexivity.
Qed.

(** Every piece lies inside the text. *)
Lemma piece_inside (sep : ascii) (s : string) :
  ∀ l, In l (split_on sep s) → ∃ before after, s = before +:+ l +:+ after.
Proof.
  induction s as [|c s IH]; intros l Hl.
  - simpl in Hl. destruct Hl as [<-|[]]. exists "", "". reflexivity.
  - simpl in Hl. destruct (Ascii.eqb c sep).
    + destruct Hl as [<-|Hl]; [exists "", (String c s); reflexivity|].
      destruct (IH l Hl) as (p & q & E).
      exists (String c p), q. rewrite sapp_cons, <- E. reflexivity.
    + destruct (first_piece_prefix sep s) as [rest Hrest].
      destruct (split_on sep s) as [|l0 ls]; simpl in *.
      * destruct Hl as [<-|[]]. exists "", s. reflexivity.
      * destruct Hl as [<-|Hl].
        -- exists "", rest. rewrite sapp_nil_l, sapp_cons, <- Hrest. reflexivity.
        -- destruct (IH l (or_intror Hl)) as (p & q & E).
           exists (String c p), q. rewrite sapp_cons, <- E. reflexivity.
Qed.

Lemma piece_contains (sep : ascii) (sub s l : string) :
  In l (split_on sep s) → contains sub l = true → contains sub s = true.
Proof.
  intros Hl Hc. destruct (piece_inside sep s l Hl) as (p & q & ->).
  apply contains_app_r, contains_sapp_l, Hc.
Qed.

(** A text that does not hold [sub] has no piece that holds it. *)
Lemma filter_pieces_none (sep : ascii) (sub s : string) :
  contains sub s = false →
  filter (λ l, contains sub l = true) (split_on sep s) = [].
Proof.
  intros Hs.
  assert (H : ∀ l, In l (split_on sep s) → contains sub l = false).
  { intros l Hl. destruct (contains sub l) eqn:E; [|reflexivity].
    rewrite (piece_contains sep sub s l Hl E) in Hs. discriminate. }
  induction (split_on sep s) as [|l ls IH]; [reflexivity|].
  rewrite filter_cons. destruct (decide (contains sub l = true)) as [E|_].
  - rewrite (H l (or_introl eq_refl)) in E. discriminate.
  - apply IH. intros l' Hl'. apply H. right. exact Hl'.
Qed.

(** *** A substring cannot straddle a character it does not hold *)

Lemma prefix_sapp_sep (c : ascii) (sub : string) :
  avoids c sub = true →
  ∀ a b, String.prefix sub (a +:+ String c b) = true → String.prefix sub a = true.
Proof.
  induction sub as [|x sub IH]; intros Hav a b H; [apply prefix_nil|].
  simpl in Hav. apply andb_prop in Hav as [Hx Hav].
  apply negb_true_iff in Hx.
  destruct a as [|d a].
  - rewrite sapp_nil_l in H. simpl in H.
    destruct (ascii_dec x c) as [->|]; [|discriminate].
    rewrite Ascii.eqb_refl in Hx. discriminate.
  - rewrite sapp_cons in H. simpl in *.
    destruct (ascii_dec x d); [apply (IH Hav a b H)|discriminate].
Qed.

Lemma contains_sapp_sep (c : ascii) (sub a b : string) :
  avoids c sub = true → sub ≠ "" →
  contains sub (a +:+ String c b) = contains sub a || contains sub b.
Proof.
  intros Hav Hne. induction a as [|d a IH].
  - rewrite sapp_nil_l. simpl contains at 1.
    destruct sub as [|x sub]; [contradiction|].
    simpl in Hav. apply andb_prop in Hav as [Hx _].
    apply negb_true_iff in Hx.
    simpl. destruct (ascii_dec x c) as [->|]; [|reflexivity].
    rewrite Ascii.eqb_refl in Hx. discriminate.
  - rewrite sapp_cons.
    rewrite (contains_unfold sub (String d (a +:+ String c b))).
    rewrite (contains_unfold sub (String d a)).
    destruct (String.prefix sub (String d a)) eqn:Hp.
    + change (String d (a +:+ String c b)) with (String d a +:+ String c b).
      rewrite (prefix_sapp_mono _ _ _ Hp). reflexivity.
    + destruct (String.prefix sub (String d (a +:+ String c b))) eqn:Hq.
      * change (String d (a +:+ String c b)) with (String d a +:+ String c b) in Hq.
        rewrite (prefix_sapp_sep c sub Hav _ _ Hq) in Hp. discriminate.
      * exact IH.
Qed.

End PyStrMore.

(** ** Facts on entity extraction and on [main] *)

Module PipelineFacts.
Import Entities PyStr PyStrFacts PyStrMore Judgment JudgmentFacts Report Pipeline.

Lemma entities_fold_elem (ents : list (string * string)) :
  ∀ (acc : gset entity) (t l : string),
    (t, l) ∈ foldl (λ entities ent,
                      let ent_text := strip ent.1 in
                      if String.eqb ent_text "" then entities
                      else entities ∪ {[ (ent_text, ent.2) ]}) acc ents
    ↔ (t, l) ∈ acc ∨ (t ≠ "" ∧ ∃ raw, (raw, l) ∈ ents ∧ strip raw = t).
Proof.
  induction ents as [|[raw0 l0] ents IH]; intros acc t l; simpl.
  - split; [intros H; left; exact H|].
    intros [H|(_ & raw & Hin & _)]; [exact H|]. inversion Hin.
  - rewrite IH. destruct (String.eqb_spec (strip raw0) "") as [E|E].
    + split.
      * intros [H|(Hne & raw & Hin & Hs)]; [left; exact H|].
        right. split; [exact Hne|]. exists raw. split; [right; exact Hin|exact Hs].
      * intros [H|(Hne & raw & Hin & Hs)]; [left; exact H|].
        apply elem_of_cons in Hin as [Heq|Hin].
        -- injection Heq as -> ->. congruence.
        -- right. split; [exact Hne|]. exists raw. split; assumption.
    + rewrite elem_of_union, elem_of_singleton. split.
      * intros [[H|Heq]|(Hne & raw & Hin & Hs)].
        -- left; exact H.
        -- injection Heq as -> ->. right. split; [exact E|].
           exists raw0. split; [left|reflexivity].
        -- right. split; [exact Hne|]. exists raw. split; [right; exact Hin|exact Hs].
      * intros [H|(Hne & raw & Hin & Hs)]; [left; left; exact H|].
        apply elem_of_cons in Hin as [Heq|Hin].
        -- injection Heq as -> ->. left; right. rewrite Hs. reflexivity.
        -- right. split; [exact Hne|]. exists raw. split; assumption.
Qed.

Lemma entities_elem (ents : list (string * string)) (t l : string) :
  (t, l) ∈ entities_of_ents ents
  ↔ t ≠ "" ∧ ∃ raw, (raw, l) ∈ ents ∧ strip raw = t.
Proof.
  unfold entities_of_ents. rewrite entities_fold_elem.
  split; [intros [H|H]; [set_solver|exact H]|intros H; right; exact H].
Qed.

(** X1. An entity is extracted exactly when spaCy reported it under some
    text that strips to the entity's text, and that text is not empty. *)
Theorem entities_of_ents_elem (ents : list (string * string)) (t l : string) :
  (t, l) ∈ entities_of_ents ents
  ↔ t ≠ "" ∧ ∃ raw, (raw, l) ∈ ents ∧ strip raw = t.
Proof. apply entities_elem. Qed.

(** X2. No extracted entity has an empty text or a text with white space
    at either end. *)
Theorem entities_of_ents_stripped (ents : list (string * string)) :
  set_Forall (λ e : entity, e.1 ≠ "" ∧ strip e.1 = e.1) (entities_of_ents ents).
Proof.
  intros [t l] H. unfold entities_of_ents in H.
  apply entities_fold_elem in H as [H|(Hne & raw & _ & <-)]; [set_solver|].
  simpl. split; [exact Hne|apply strip_idempotent].
Qed.

(** X3. The extracted set depends on what spaCy reported only as a set:
    order and repetition of the reported entities do not matter; and it has
    at most as many entities as were reported. *)
Theorem entities_of_ents_as_set (ents1 ents2 : list (string * string)) :
  (∀ e, e ∈ ents1 ↔ e ∈ ents2) →
  entities_of_ents ents1 = entities_of_ents ents2
  ∧ (size (entities_of_ents ents1) ≤ length ents1)%nat.
Proof.
  intros Hsame. split.
  - apply set_eq. intros [t l]. rewrite !entities_elem.
    split; intros (Hne & raw & Hin & Hs); (split; [exact Hne|]);
      exists raw; (split; [apply Hsame, Hin|exact Hs]).
  - clear. unfold entities_of_ents.
    assert (H : ∀ (acc : gset entity),
      (size (foldl (λ entities ent,
                      let ent_text := strip ent.1 in
                      if String.eqb ent_text "" then entities
                      else entities ∪ {[ (ent_text, ent.2) ]}) acc ents1)
       ≤ size acc + length ents1)%nat).
    { induction ents1 as [|[raw l] ents IH]; intros acc; simpl; [lia|].
      etransitivity; [apply IH|].
      destruct (String.eqb (strip raw) ""); [lia|].
      pose proof (size_union_alt acc {[ (strip raw, l) ]}) as Hu.
      assert (size ({[ (strip raw, l) ]} ∖ acc : gset entity) ≤ 1)%nat.
      { rewrite <- (size_singleton (strip raw, l) (C := gset entity)).
        apply subseteq_size. set_solver. }
      lia. }
    specialize (H ∅). rewrite size_empty in H. exact H.
Qed.

Lemma entities_of_ents_as_set_witness :
  entities_of_ents [("Acme ", "ORG"); ("Python", "SKILL"); ("Acme ", "ORG")]
  = entities_of_ents [("Python", "SKILL"); ("Acme ", "ORG")].
Proof.
  refine (proj1 (entities_of_ents_as_set
                   [("Acme ", "ORG"); ("Python", "SKILL"); ("Acme ", "ORG")]
                   [("Python", "SKILL"); ("Acme ", "ORG")] _)).
  intros e. rewrite !elem_of_cons, !elem_of_nil. tauto.
Defined.

End PipelineFacts.

(** ** Further facts on the judgment and on how the report reads it *)

Module JudgmentMore.
Import Entities PyStr PyStrFacts PyStrMore Judgment JudgmentFacts Report.

(** The two shapes of an accepted assessment. *)
Lemma accept_assessment_cases (a s : string) :
  accept_assessment a = Some s →
  a ≠ "" ∧ 30 < len a
  ∧ ((contains "VERDICT:" a = true ∧ s = a)
     ∨ (contains "VERDICT:" a = false
        ∧ s = a +:+ String nl_char
                (String nl_char
                   (if contains "HIRE" (upper a) then "VERDICT: HIRE"
                    else "VERDICT: REJECT")))).
Proof.
  unfold accept_assessment.
  destruct (String.eqb_spec a "") as [->|Hne]; [discriminate|].
  destruct (Z.ltb_spec 30 (len a)) as [Hlen|]; [|discriminate]. simpl.
  intros H. split; [exact Hne|]. split; [exact Hlen|].
  destruct (contains "VERDICT:" a); simpl in H.
  - left. injection H as <-. split; reflexivity.
  - right. split; [reflexivity|].
    destruct (contains "HIRE" (upper a)); injection H as <-; reflexivity.
Qed.

Lemma accept_stable (a s : string) :
  accept_assessment a = Some s → accept_assessment s = Some s.
Proof.
  intros H. pose proof (accept_assessment_verdict a s H) as Hv.
  destruct (accept_assessment_cases a s H) as (Hne & Hlen & Hs).
  assert (Hs' : s ≠ "" ∧ 30 < len s).
  { destruct Hs as [[_ ->]|[_ ->]]; [split; assumption|].
    rewrite len_sapp. split; [destruct a; [contradiction|discriminate]|].
    unfold len in *. lia. }
  destruct Hs' as [Hne' Hlen'].
  rewrite (accept_assessment_long s Hne' Hlen'), Hv. reflexivity.
Qed.

(** X4. Normalising is idempotent: a text that the normaliser accepted is
    accepted unchanged when it is given to the normaliser again. *)
Theorem accept_assessment_idempotent (a s : string) :
  accept_assessment a = Some s → accept_assessment s = Some s.
Proof. apply accept_stable. Qed.

Lemma accept_assessment_idempotent_witness :
  accept_assessment
    ("Clear answers; we should hire this engineer."
     +:+ nl +:+ nl +:+ "VERDICT: HIRE")
  = Some ("Clear answers; we should hire this engineer."
          +:+ nl +:+ nl +:+ "VERDICT: HIRE").
Proof.
  apply (accept_assessment_idempotent
           "Clear answers; we should hire this engineer.").
  vm_compute. reflexivity.
Defined.

(** X5. When the judge's text is accepted and has no verdict marker, the
    verdict line that [main] reads from the result is the appended one:
    [VERDICT: HIRE] when the upper-cased text contains HIRE and
    [VERDICT: REJECT] when it does not; it is never MAYBE. *)
Theorem appended_verdict_line (a s : string) :
  accept_assessment a = Some s →
  contains "VERDICT:" a = false →
  verdict_line s
  = Some (if contains "HIRE" (upper a) then "VERDICT: HIRE"
          else "VERDICT: REJECT").
Proof.
  intros H Hv.
  destruct (accept_assessment_cases a s H) as (_ & _ & [[Hv' _]|[_ ->]]);
    [congruence|].
  unfold verdict_line. rewrite split_on_sapp, filter_app.
  rewrite (filter_pieces_none nl_char "VERDICT:" a Hv).
  destruct (contains "HIRE" (upper a)); vm_compute; reflexivity.
Qed.

Lemma appended_verdict_line_witness :
  verdict_line ("Answers were vague and the examples did not hold up."
                +:+ nl +:+ nl +:+ "VERDICT: REJECT")
  = Some "VERDICT: REJECT".
Proof.
  apply (appended_verdict_line
           "Answers were vague and the examples did not hold up.");
    vm_compute; reflexivity.
Defined.

(** X6. The banner of an accepted text without verdict marker is never the
    amber one: it is green when the upper-cased text contains HIRE and not
    REJECT, and red in every other case, also when the appended line says
    HIRE and the text mentions REJECT. *)
Theorem unmarked_text_banner (a s : string) :
  accept_assessment a = Some s →
  contains "VERDICT:" a = false →
  report_verdict s
  = (if contains "HIRE" (upper a) && negb (contains "REJECT" (upper a))
     then HIRE else REJECT).
Proof.
  intros H Hv.
  destruct (accept_assessment_cases a s H) as (_ & _ & [[Hv' _]|[_ ->]]);
    [congruence|].
  unfold report_verdict, says_hire, says_reject.
  rewrite upper_sapp.
  destruct (contains "HIRE" (upper a)) eqn:Hh.
  - change (upper (String nl_char (String nl_char "VERDICT: HIRE")))
      with (String nl_char (String nl_char "VERDICT: HIRE")).
    rewrite !contains_sapp_sep by (reflexivity || discriminate).
    rewrite Hh. cbn [orb andb].
    change (contains "REJECT" (String nl_char "VERDICT: HIRE")) with false.
    rewrite orb_false_r.
    destruct (contains "REJECT" (upper a)); reflexivity.
  - change (upper (String nl_char (String nl_char "VERDICT: REJECT")))
      with (String nl_char (String nl_char "VERDICT: REJECT")).
    rewrite !contains_sapp_sep by (reflexivity || discriminate).
    rewrite Hh.
    change (contains "HIRE" (String nl_char "VERDICT: REJECT")) with false.
    change (contains "REJECT" (String nl_char "VERDICT: REJECT")) with true.
    rewrite orb_true_r. reflexivity.
Qed.

Lemma unmarked_text_banner_witness :
  report_verdict ("We should hire her; earlier doubts were rejected."
                  +:+ nl +:+ nl +:+ "VERDICT: HIRE")
  = REJECT.
Proof.
  apply (unmarked_text_banner
           "We should hire her; earlier doubts were rejected.");
    vm_compute; reflexivity.
Defined.

(** X7. On the fallback path the report reads back the heuristic verdict:
    the banner and the recommendations drawn for the fallback text are
    those of the verdict of the stated policy. *)
Theorem fallback_read_back (grammar_errors : Z) (n_matched : nat) :
  report_verdict (fallback grammar_errors n_matched)
  = spec_verdict grammar_errors n_matched.
Proof.
  unfold spec_verdict, fallback, fallback_verdict.
  destruct (Z.ltb_spec grammar_errors 5), (Z.ltb_spec 15 grammar_errors);
    try lia;
    destruct (3 <? n_matched)%nat, (1 <? n_matched)%nat,
             (3 <=? n_matched)%nat; vm_compute; reflexivity.
Qed.

(** X8. The judgment depends on the transcript only through its first 400
    characters and on the two entity sets only through their sizes. *)
Theorem get_llm_judgment_sees (j : judge) (transcript transcript' : string)
    (grammar_errors : Z) (matched matched' missing missing' : gset entity) :
  slice_to 400 transcript = slice_to 400 transcript' →
  size matched = size matched' →
  size missing = size missing' →
  get_llm_judgment j transcript grammar_errors matched missing
  = get_llm_judgment j transcript' grammar_errors matched' missing'.
Proof.
  intros Ht Hm Hc.
  unfold get_llm_judgment, try_block, prompt. rewrite Ht, Hm, Hc. reflexivity.
Qed.

Lemma get_llm_judgment_sees_witness :
  get_llm_judgment Absent "I worked at Acme." 2
    {[ ("Acme", "ORG") ]} ∅
  = get_llm_judgment Absent "I worked at Acme." 2
      {[ ("Python", "SKILL") ]} ∅.
Proof.
  apply get_llm_judgment_sees; reflexivity.
Defined.

Lemma fallback_accepted (ge : Z) (n : nat) :
  accept_assessment (fallback ge n) = Some (fallback ge n).
Proof.
  unfold fallback, fallback_verdict.
  destruct (3 <? n)%nat, (1 <? n)%nat, ((ge <? 5) && (3 <=? n)%nat),
           (15 <? ge); vm_compute; reflexivity.
Qed.

Lemma marked_container_accepted (v : value) :
  marked_container v = true → accept_value v = Returns (Some v).
Proof.
  destruct v as [s| |b|n|z|items|entries];
    cbn [marked_container accept_value]; try discriminate;
    intros H; apply andb_prop in H as [-> ->]; reflexivity.
Qed.

(** X22. Every judgment that [get_llm_judgment] returns, the fallback
    text included, is stable: a judge that answers with it gets it back
    unchanged. *)
Theorem get_llm_judgment_stable (j : judge) (transcript transcript' : string)
    (grammar_errors grammar_errors' : Z)
    (matched missing matched' missing' : gset entity) (v : value) :
  get_llm_judgment j transcript grammar_errors matched missing = Returns v →
  get_llm_judgment (Present (λ _, Returns (RDict (Some v))))
    transcript' grammar_errors' matched' missing'
  = Returns v.
Proof.
  intros H.
  assert (Hacc : accept_value v = Returns (Some v)).
  { unfold get_llm_judgment in H.
    destruct (try_block j transcript grammar_errors matched missing)
      as [[a|]|] eqn:Htry; injection H as <-.
    - unfold try_block in Htry. destruct j as [|generate]; [discriminate|].
      destruct (generate _) as [r|]; [|discriminate].
      apply accept_value_some in Htry
        as [(s & text & _ & -> & Hacc)|[-> Hm]].
      + cbn [accept_value]. rewrite (accept_stable _ _ Hacc). reflexivity.
      + apply marked_container_accepted, Hm.
    - cbn [accept_value]. rewrite fallback_accepted. reflexivity.
    - cbn [accept_value]. rewrite fallback_accepted. reflexivity. }
  unfold get_llm_judgment, try_block. cbn [assessment_of].
  rewrite Hacc. reflexivity.
Qed.

Lemma get_llm_judgment_stable_witness :
  get_llm_judgment (Present (λ _, Returns (RDict (Some (VText (fallback 7 1))))))
    "Another interview." 0 ∅ ∅
  = Returns (VText (fallback 7 1)).
Proof.
  apply (get_llm_judgment_stable Absent "I worked at Acme." "Another interview."
           7 0 {[ ("Acme", "ORG") ]} ∅ ∅ ∅).
  reflexivity.
Defined.

(** X23. The length threshold decides alone: an assessment is refused, and
    the fallback used, exactly when it has at most 30 characters; the test
    for the empty text adds nothing. A text of 30 characters is refused and
    one of 31 is accepted. *)
Theorem accept_assessment_threshold (a : string) :
  (accept_assessment a = None ↔ (String.length a ≤ 30)%nat)
  ∧ accept_assessment "123456789012345678901234567890" = None
  ∧ accept_assessment "1234567890123456789012345678901"
    = Some ("1234567890123456789012345678901" +:+ nl +:+ nl +:+ "VERDICT: REJECT").
Proof.
  split; [|split; vm_compute; reflexivity].
  split.
  - intros H. destruct (Nat.le_gt_cases (String.length a) 30) as [Hle|Hgt];
      [exact Hle|].
    assert (Hne : a ≠ "") by (destruct a; [simpl in Hgt; lia|discriminate]).
    rewrite (accept_assessment_long a Hne) in H; [discriminate|].
    unfold len. lia.
  - intros H. apply accept_assessment_short. right. unfold len. lia.
Qed.

End JudgmentMore.

(** ** Facts on [main] *)

Module MainFacts.
Import Entities PyStr PyStrFacts PyStrMore Judgment JudgmentFacts Report Pipeline.

(** The index [0] of line 426 is safe: under its guard the list of lines
    with the marker is not empty. *)
Lemma first_verdict_line_found (text : string) :
  contains "VERDICT:" text = true →
  ∃ l, first_verdict_line text = Returns (Some l)
       ∧ contains "VERDICT:" l = true.
Proof.
  intros H. unfold first_verdict_line. rewrite H.
  pose proof (contains_in_piece nl_char "VERDICT:" eq_refl text H) as Hex.
  destruct (filter _ (split_on nl_char text)) as [|l ls] eqn:E.
  - apply Exists_exists in Hex as (l & Hin & Hl).
    assert (Hf : l ∈ filter (λ l, contains "VERDICT:" l = true)
                     (split_on nl_char text)).
    { apply list_elem_of_filter. split; [exact Hl|exact Hin]. }
    rewrite E in Hf. inversion Hf.
  - exists l. split; [reflexivity|].
    assert (Hf : l ∈ filter (λ l, contains "VERDICT:" l = true)
                     (split_on nl_char text)) by (rewrite E; left).
    apply list_elem_of_filter in Hf as [Hl _]. exact Hl.
Qed.

Lemma generate_returns (wd : world) (env : ambient) (ge : Z)
    (entities matched cv_only : gset entity) (summary name position : string) :
  ∃ success,
    generate_beautiful_pdf wd env ge entities matched cv_only summary
      name position = Returns success
    ∧ (success = true → path_exists wd = true).
Proof.
  unfold generate_beautiful_pdf, try_generate.
  destruct (execute wd _) as [[]|], (path_exists wd), (getsize wd);
    eexists; (split; [reflexivity|]); intros; congruence.
Qed.

(** X9. When the five collaborators of the first steps return (transcript,
    grammar matches, entities of the transcript, text of the CV, entities of
    the CV), [main] ends in one of two ways. Either it prints a verdict
    line, one that contains [VERDICT:], whether or not the report could be
    written, and REPORT READY only if the report file exists. Or the judge's
    dict held under ['response'] a list or a dict of more than 30 items that
    holds [VERDICT:]: then the judgment is that container, the report is not
    written, line 426 raises on it and [main] ends with the error banner. *)
Theorem main_prints_verdict (c : collaborators) (transcript cv_text : string)
    (matches : nat) (ents cv_ents : list (string * string)) :
  transcribe c "AK012clip.mp3" = Returns transcript →
  check c transcript = Returns matches →
  nlp c transcript = Returns ents →
  files c !! "employee_cv.txt" = Some (Returns cv_text) →
  nlp c cv_text = Returns cv_ents →
  (∃ verdict report_ready,
     main c = Finished (Some verdict) report_ready
     ∧ contains "VERDICT:" verdict = true
     ∧ (report_ready = true → path_exists (disk c) = true))
  ∨ (main c = Failed
     ∧ ∃ generate p v,
         llm c = Present generate
         ∧ generate p = Returns (RDict (Some v))
         ∧ marked_container v = true).
Proof.
  intros Ht Hc Hn Hf Hn'.
  unfold main, main_body, analyze_grammar, extract_entities, load_cv.
  rewrite Ht. cbn [and_then]. rewrite Hc, Hn. cbn [and_then].
  rewrite Hf. cbn [and_then]. rewrite Hn'. cbn [and_then].
  destruct (compare_entities (entities_of_ents ents) (entities_of_ents cv_ents))
    as [matched cv_only].
  destruct (judgment_returns (llm c) transcript (Z.of_nat matches) matched cv_only)
    as [summary Hs].
  rewrite Hs. cbn [and_then].
  destruct (judgment_shape _ _ _ _ _ _ Hs)
    as [(text & -> & Hmark)|(Hm & generate & Hj & Hgen)].
  - left. cbn [generate_report summary_verdict_line].
    destruct (generate_returns (disk c) (surroundings c) (Z.of_nat matches)
                (entities_of_ents ents) matched cv_only text
                "John Doe" "Engineer") as (success & Hg & Hok).
    rewrite Hg. cbn [and_then].
    destruct (first_verdict_line_found text Hmark) as (l & Hl & Hv).
    rewrite Hl. cbn [and_then].
    exists l, success. split; [reflexivity|]. split; [exact Hv|exact Hok].
  - right. split.
    + destruct summary as [s| |b|n|z|items|entries];
        cbn [marked_container] in Hm; try discriminate;
        apply andb_prop in Hm as [_ Hm];
        cbn [generate_report summary_verdict_line and_then];
        rewrite Hm; reflexivity.
    + exists generate, (prompt transcript (Z.of_nat matches) matched cv_only),
        summary. repeat split; assumption.
Qed.

(** X10. When the audio cannot be transcribed, or the CV file is missing
    or unreadable, [main] ends with the error banner: no verdict line and no
    REPORT READY, whatever the judge and the disk do. *)
Theorem main_fails_without_inputs (c : collaborators) :
  transcribe c "AK012clip.mp3" = Raises
  ∨ load_cv (files c) "employee_cv.txt" = Raises →
  main c = Failed.
Proof.
  intros [H|H]; unfold main, main_body.
  - rewrite H. reflexivity.
  - destruct (transcribe c "AK012clip.mp3") as [transcript|]; [|reflexivity].
    cbn [and_then].
    destruct (analyze_grammar (check c) transcript); [|reflexivity].
    cbn [and_then].
    destruct (extract_entities (nlp c) transcript); [|reflexivity].
    cbn [and_then]. rewrite H. reflexivity.
Qed.

Lemma main_prints_verdict_witness :
  ∃ verdict report_ready,
    main {| transcribe := λ _, Returns "I worked at Acme for two years.";
            check := λ _, Returns 2%nat;
            nlp := λ _, Returns [("Acme", "ORG")];
            files := {[ "employee_cv.txt" := Returns "Acme, 2019 to 2021" ]};
            llm := Absent;
            surroundings := plain_env;
            disk := empty_file_world |}
    = Finished (Some verdict) report_ready
    ∧ contains "VERDICT:" verdict = true.
Proof.
  destruct (main_prints_verdict
              {| transcribe := λ _, Returns "I worked at Acme for two years.";
                 check := λ _, Returns 2%nat;
                 nlp := λ _, Returns [("Acme", "ORG")];
                 files := {[ "employee_cv.txt" := Returns "Acme, 2019 to 2021" ]};
                 llm := Absent;
                 surroundings := plain_env;
                 disk := empty_file_world |}
              "I worked at Acme for two years." "Acme, 2019 to 2021"
              2%nat [("Acme", "ORG")] [("Acme", "ORG")]
              eq_refl eq_refl eq_refl (lookup_singleton_eq _ _) eq_refl)
    as [(verdict & ready & Hrun & Hv & _)|(_ & generate & p & v & Hj & _)].
  - exists verdict, ready. split; assumption.
  - discriminate Hj.
Defined.

Lemma main_fails_without_inputs_witness :
  main {| transcribe := λ _, Returns "I worked at Acme for two years.";
          check := λ _, Returns 2%nat;
          nlp := λ _, Returns [("Acme", "ORG")];
          files := ∅;
          llm := Absent;
          surroundings := plain_env;
          disk := empty_file_world |}
  = Failed.
Proof.
  apply main_fails_without_inputs. right. reflexivity.
Defined.

(** The judge of the second case: [main] ends with the error banner. *)
Example main_marked_list :
  main {| transcribe := λ _, Returns "I worked at Acme for two years.";
          check := λ _, Returns 2%nat;
          nlp := λ _, Returns [("Acme", "ORG")];
          files := {[ "employee_cv.txt" := Returns "Acme, 2019 to 2021" ]};
          llm := Present (λ _, Returns (RDict (Some marked_list)));
          surroundings := plain_env;
          disk := empty_file_world |}
  = Failed.
Proof. vm_compute. reflexivity. Qed.

End MainFacts.

(** ** Further facts on wrapping *)

Module WrapMore.
Import Entities PyStr PyStrFacts PyStrMore Report Layout.

(** X11. A text without words (empty, or white space only) draws nothing
    and leaves the cursor where it is, without a page break even when the
    cursor is below the bottom margin. *)
Theorem wrap_text_blank (y : Z) (text : string) (size indent : Z) :
  Forall (λ c, is_space c = true) (list_ascii_of_string text) →
  wrap_text y text size indent = (y, []).
Proof.
  intros H. unfold wrap_text, split. rewrite (split_from_blank text H).
  reflexivity.
Qed.

Lemma wrap_text_blank_witness :
  wrap_text 30 ("  " +:+ nl +:+ " ") 9 20 = (30, []).
Proof.
  apply wrap_text_blank. vm_compute. repeat constructor.
Defined.

Lemma page_break_not_needed (y : Z) :
  50 <= y → page_break_below 50 y = (y, []).
Proof.
  intros H. unfold page_break_below.
  destruct (Z.ltb_spec y 50); [lia|reflexivity].
Qed.

Lemma flush_line_value (x size : Z) (line : string) (y : Z) :
  flush_line x size line y
  = if String.eqb line "" then (y, [])
    else (y - (size + 3), [DrawString x y (slice_to 110 line)]).
Proof. unfold flush_line. destruct (String.eqb line ""); reflexivity. Qed.

Lemma wrap_loop_with_room (x size max_width : Z) (words : list string) :
  0 <= size + 3 →
  ∀ (line : string) (y : Z),
    50 <= y - (size + 3)
             * Z.of_nat (length (lines_from size max_width words line)) →
    let r := wrap_loop x size max_width words line y in
    let f := flush_line x size (fst r).1 (fst r).2 in
    snd r ++ snd f
    = imap (λ i l, DrawString x (y - (size + 3) * Z.of_nat i) (slice_to 110 l))
        (lines_from size max_width words line)
    ∧ fst f = y - (size + 3)
                  * Z.of_nat (length (lines_from size max_width words line)).
Proof.
  intros Hsize. induction words as [|word rest IH]; intros line y Hroom.
  - cbn [wrap_loop lines_from] in *. cbn. unfold flush_line.
    destruct (String.eqb line ""); cbn; split; f_equal; try f_equal; lia.
  - cbn [wrap_loop lines_from] in *. cbn zeta.
    destruct (fits _ size max_width).
    + cbn [bind ret fst snd].
      assert (Hy : 50 <= y) by nia.
      rewrite (page_break_not_needed y Hy). cbn [fst snd].
      rewrite !app_nil_l. apply (IH _ y Hroom).
    + cbn [bind ret fst snd].
      rewrite length_app in Hroom.
      rewrite !(flush_line_value x size line y).
      destruct (String.eqb line "") eqn:El.
      * cbn [fst snd app length] in *.
        assert (Hy : 50 <= y) by nia.
        rewrite (page_break_not_needed y Hy). cbn [fst snd].
        rewrite !app_nil_l. apply (IH word y). lia.
      * cbn [fst snd app length] in *.
        assert (Hy : 50 <= y - (size + 3)) by nia.
        rewrite (page_break_not_needed _ Hy). cbn [fst snd].
        rewrite !app_nil_l.
        destruct (IH word (y - (size + 3)) ltac:(lia)) as [Hops Hcur].
        cbn zeta in Hops, Hcur. split.
        -- rewrite Hops.
           cbn [imap]. f_equal; [f_equal; lia|].
           apply imap_ext. intros i l _. cbn. f_equal. lia.
        -- rewrite Hcur. lia.
Qed.

(** X12. When the cursor after the paragraph is still at or above the
    bottom margin, [wrap_text] emits no page break: it draws line [i] of the
    paragraph at [y - i * (size + 3)], cut to 110 characters, and returns
    the cursor lowered by one line height per line. *)
Theorem wrap_text_with_room (y : Z) (text : string) (size indent : Z) :
  0 <= size + 3 →
  50 <= y - (size + 3) * Z.of_nat (length (wrap_lines text size indent)) →
  wrap_text y text size indent
  = (y - (size + 3) * Z.of_nat (length (wrap_lines text size indent)),
     imap (λ i line,
             DrawString (40 + indent) (y - (size + 3) * Z.of_nat i)
               (slice_to 110 line))
       (wrap_lines text size indent)).
Proof.
  intros Hsize Hroom. unfold wrap_text, wrap_lines in *.
  destruct (wrap_loop_with_room (40 + indent) size (w - 80 - indent)
              (split text) Hsize "" y Hroom) as [Hops Hcur].
  cbn zeta in Hops, Hcur.
  destruct (wrap_loop (40 + indent) size (w - 80 - indent) (split text) "" y)
    as [[line y1] ops].
  unfold bind. cbn [fst snd] in *.
  rewrite <- Hops, <- Hcur. reflexivity.
Qed.

Lemma wrap_text_with_room_witness :
  wrap_text 497 "GOOD - Generally clear communication with 7 minor errors. Ideas expressed well but could be more polished." 9 20
  = (485, [DrawString 60 497 "GOOD - Generally clear communication with 7 minor errors. Ideas expressed well but could be more polished."]).
Proof.
  refine (eq_trans (wrap_text_with_room 497 _ 9 20 _ _) _).
  - lia.
  - vm_compute. discriminate.
  - vm_compute. reflexivity.
Defined.

(** The pending line and every word still to come satisfy [P]; so does
    every line that comes out. *)
Lemma lines_from_fit_or_word (size max_width : Z) (all : list string)
    (words : list string) :
  ∀ line,
    (∀ wd, wd ∈ words → wd ∈ all) →
    (line = "" ∨ fits line size max_width = true ∨ line ∈ all) →
    Forall (λ l, fits l size max_width = true ∨ l ∈ all)
      (lines_from size max_width words line).
Proof.
  induction words as [|word rest IH]; intros line Hsub Hline;
    cbn [lines_from].
  - destruct (String.eqb_spec line ""); [constructor|].
    constructor; [|constructor]. destruct Hline as [?|H]; [contradiction|exact H].
  - destruct (fits (strip (line +:+ " " +:+ word)) size max_width) eqn:Hf.
    + apply IH; [intros wd Hwd; apply Hsub; right; exact Hwd|].
      right; left; exact Hf.
    + apply Forall_app. split.
      * destruct (String.eqb_spec line ""); [constructor|].
        constructor; [|constructor].
        destruct Hline as [?|H]; [contradiction|exact H].
      * apply IH; [intros wd Hwd; apply Hsub; right; exact Hwd|].
        right; right. apply Hsub. left.
Qed.

(** X13. Words are never broken: every line of a wrapped paragraph either
    passes the width test or is one word of the text, too long for the
    width, on a line of its own. At size 10 without indent a line that
    passes the test has at most 106 characters, so only such an over-long
    word can be cut by the slice to 110. *)
Theorem wrap_lines_fit_or_word (text : string) (size indent : Z) :
  Forall (λ line, fits line size (w - 80 - indent) = true ∨ line ∈ split text)
    (wrap_lines text size indent)
  ∧ Forall (λ line, slice_to 110 line = line ∨ line ∈ split text)
      (wrap_lines text 10 0).
Proof.
  assert (H : ∀ size indent,
    Forall (λ line, fits line size (w - 80 - indent) = true ∨ line ∈ split text)
      (wrap_lines text size indent)).
  { intros s i. unfold wrap_lines. apply lines_from_fit_or_word.
    - intros wd Hwd. exact Hwd.
    - left. reflexivity. }
  split; [apply H|].
  eapply Forall_impl; [apply (H 10 0)|].
  intros line [Hfit|Hw]; [left|right; exact Hw].
  unfold fits, len, w in Hfit. apply Z.ltb_lt in Hfit.
  destruct (slice_to_spec 110 line) as [[E _]|[Hlong _]]; [exact E|lia].
Qed.

End WrapMore.

(** ** Further facts on the report *)

Module ReportMore.
Import Entities PyStr PyStrFacts PyStrMore Judgment Report Layout.

Lemma drawn_texts_bind {A B : Type} (m : canvas A) (k : A → canvas B) :
  drawn_texts (snd (bind m k))
  = drawn_texts (snd m) ++ drawn_texts (snd (k (fst m))).
Proof. unfold bind. cbn [snd]. apply drawn_texts_app. Qed.

(** X14. The list of improvement areas has between one and four items and
    always ends with the item on confidence; the item on communication
    polish is present exactly for more than 5 errors and the item on
    communication excellence exactly for 0 errors, so never both. *)
Theorem improvements_shape (grammar_errors : Z) (matched cv_only : gset entity) :
  let items := improvements grammar_errors matched cv_only in
  let areas := map (λ item : string * string * string, item.1.1) items in
  (1 ≤ length items ≤ 4)%nat
  ∧ last areas = Some "Confidence & Presence"
  ∧ ("Communication Polish" ∈ areas ↔ 5 < grammar_errors)
  ∧ ("Communication Excellence" ∈ areas ↔ grammar_errors = 0).
Proof.
  unfold improvements.
  destruct (Z.ltb_spec 5 grammar_errors), (Z.eqb_spec grammar_errors 0);
    try lia;
    destruct (Z.of_nat (size matched) <? Z.of_nat (size cv_only)),
             ((0 <? Z.of_nat (size matched)) && (Z.of_nat (size matched) <? 3));
    cbn; (split; [lia|]); (split; [reflexivity|]);
    split; split; intros Hin; try lia; try (repeat constructor);
    repeat (apply elem_of_cons in Hin as [Hin|Hin]; [discriminate|]);
    inversion Hin.
Qed.

(** X15. For a non-negative error count the grammar accuracy is a
    percentage between 0 and 100; it never grows with the error count and
    it is 0 exactly from 34 errors on. *)
Theorem accuracy_range (grammar_errors : Z) :
  0 <= grammar_errors →
  0 <= accuracy grammar_errors <= 100
  ∧ (accuracy grammar_errors = 0 ↔ 34 <= grammar_errors)
  ∧ (∀ more, grammar_errors <= more →
       accuracy more <= accuracy grammar_errors).
Proof. unfold accuracy. intros H. repeat split; intros; lia. Qed.

Lemma accuracy_range_witness : accuracy 2 = 94 ∧ accuracy 34 = 0.
Proof.
  split.
  - pose proof (accuracy_range 2 ltac:(lia)) as (_ & _ & _). reflexivity.
  - apply (accuracy_range 34 ltac:(lia)). lia.
Defined.

(** X16. The heuristic verdict and the bands of the detailed assessment
    agree at the two ends: with a heuristic HIRE the communication paragraph
    is the EXCELLENT or the GOOD one and the technical paragraph is not the
    LIMITED one; with a heuristic REJECT the communication paragraph is the
    POOR one. *)
Theorem heuristic_verdict_and_bands (grammar_errors : Z) (matched : gset entity) :
  (fallback_verdict grammar_errors (size matched) = "HIRE" →
     (String.prefix "EXCELLENT" (comm grammar_errors) = true
      ∨ String.prefix "GOOD" (comm grammar_errors) = true)
     ∧ String.prefix "LIMITED" (tech matched) = false)
  ∧ (fallback_verdict grammar_errors (size matched) = "REJECT" →
     String.prefix "POOR" (comm grammar_errors) = true).
Proof.
  unfold fallback_verdict, comm, tech. split.
  - destruct (Z.ltb_spec grammar_errors 5); cbn [andb];
      [|destruct (15 <? grammar_errors); discriminate].
    destruct (Nat.leb_spec 3 (size matched));
      [|destruct (15 <? grammar_errors); discriminate].
    intros _. split.
    + destruct (Z.ltb_spec grammar_errors 3); [left; reflexivity|].
      destruct (Z.ltb_spec grammar_errors 8); [right; reflexivity|lia].
    + destruct (Z.ltb_spec 3 (Z.of_nat (size matched))); [reflexivity|].
      destruct (Z.ltb_spec 1 (Z.of_nat (size matched))); [reflexivity|lia].
  - destruct ((grammar_errors <? 5) && (3 <=? size matched)%nat); [discriminate|].
    destruct (Z.ltb_spec 15 grammar_errors); [|discriminate].
    intros _.
    destruct (Z.ltb_spec grammar_errors 3); [lia|].
    destruct (Z.ltb_spec grammar_errors 8); [lia|].
    destruct (Z.ltb_spec grammar_errors 12); [lia|reflexivity].
Qed.

Lemma heuristic_verdict_and_bands_witness :
  String.prefix "POOR" (comm 20) = true.
Proof.
  apply (heuristic_verdict_and_bands 20 ∅). reflexivity.
Defined.

(** X17. For every judgment that the report does not read as a HIRE, the
    next steps are drawn in two lines and the first line, 114 characters
    long, is cut to 110: the word "Keep" of step 4 is in the text and in
    nothing that is drawn. *)
Theorem rejection_steps_lose_a_word (llm_summary : string) (y : Z) :
  says_hire llm_summary = false →
  drawn_texts (snd (next_steps_box llm_summary y))
  = [ pictograph +:+ " NEXT STEPS";
      "1. Send professional rejection email 2. Provide constructive feedback 3. Recommend language/skill training 4. ";
      "contact for future roles 5. Schedule 6-month follow-up" ]
  ∧ contains "Keep" (next_steps llm_summary) = true
  ∧ Forall (λ t, contains "Keep" t = false)
      (drawn_texts (snd (next_steps_box llm_summary y))).
Proof.
  intros H.
  assert (E : drawn_texts (snd (next_steps_box llm_summary y))
              = (pictograph +:+ " NEXT STEPS")
                :: map (slice_to 110) (wrap_lines rejection_steps 9 15)).
  { unfold next_steps_box, next_steps. rewrite H.
    rewrite drawn_texts_bind, drawn_texts_wrap_text. reflexivity. }
  rewrite E. unfold next_steps. rewrite H.
  split; [vm_compute; reflexivity|].
  split; [vm_compute; reflexivity|].
  vm_compute. repeat constructor.
Qed.

Lemma rejection_steps_lose_a_word_witness :
  Forall (λ t, contains "Keep" t = false)
    (drawn_texts (snd (next_steps_box (fallback 7 1) 78))).
Proof.
  apply (rejection_steps_lose_a_word (fallback 7 1) 78). vm_compute. reflexivity.
Defined.

(** X18. Two paragraphs of the detailed assessment are 111 characters long
    and fit on one line at size 9, which the slice then cuts to 110: for
    fewer than 3 errors the communication paragraph, and for more than 3
    matched entities the technical paragraph, are drawn without their final
    full stop. *)
Theorem excellent_and_strong_are_cut (grammar_errors : Z)
    (matched : gset entity) (y : Z) :
  (grammar_errors < 3 →
     drawn_texts (snd (wrap_text y (comm grammar_errors) 9 20))
     = ["EXCELLENT - Outstanding communication with minimal errors. Speech is clear, professional, and well-articulated"])
  ∧ ((3 < size matched)%nat →
     drawn_texts (snd (wrap_text y (tech matched) 9 20))
     = ["STRONG - Demonstrated strong technical knowledge with specific examples. Shows confidence and domain expertise"]).
Proof.
  split; intros H; rewrite drawn_texts_wrap_text.
  - unfold comm. destruct (Z.ltb_spec grammar_errors 3); [|lia].
    vm_compute. reflexivity.
  - unfold tech. destruct (Z.ltb_spec 3 (Z.of_nat (size matched))); [|lia].
    vm_compute. reflexivity.
Qed.

Lemma excellent_and_strong_are_cut_witness :
  drawn_texts (snd (wrap_text 497 (comm 0) 9 20))
  = ["EXCELLENT - Outstanding communication with minimal errors. Speech is clear, professional, and well-articulated"].
Proof.
  exact (proj1 (excellent_and_strong_are_cut 0 ∅ 497) ltac:(lia)).
Defined.

Lemma drawn_texts_recommendations_loop (recs : list string) :
  Forall (λ rec, map (slice_to 110) (wrap_lines rec 10 0) = [rec]) recs →
  ∀ y, drawn_texts (snd (recommendations_loop recs y)) = recs.
Proof.
  induction 1 as [|rec rest Hrec Hrest IH]; intros y; [reflexivity|].
  cbn [recommendations_loop].
  rewrite !drawn_texts_bind, drawn_texts_page_break, drawn_texts_wrap_text.
  rewrite Hrec, IH. reflexivity.
Qed.

(** X19. Whatever the judgment and the cursor, each of the five
    recommendations is drawn whole, on a line of its own, in the order of
    its list, under the section title. *)
Theorem recommendations_drawn_whole (llm_summary : string) (y : Z) :
  drawn_texts (snd (hr_recommendations llm_summary y))
  = (pictograph +:+ " HR RECOMMENDATIONS") :: recommendations llm_summary.
Proof.
  unfold hr_recommendations.
  rewrite !drawn_texts_bind, drawn_texts_page_break.
  rewrite drawn_texts_recommendations_loop.
  - cbn. rewrite app_nil_r. reflexivity.
  - unfold recommendations.
    destruct (says_hire llm_summary); [|destruct (says_reject llm_summary)];
      repeat constructor.
Qed.

End ReportMore.

(** ** Facts on the desktop shell *)

Module UiFacts.
Import Ui.

Lemma handle_keeps_video_frame (a : app) (cmd : command) :
  video_frame (handle a cmd) = video_frame a.
Proof. destruct cmd as [| |[| |img]| | |]; reflexivity. Qed.

(** X20. The interview page never shows the uploaded photo: [update_photo]
    runs once, when the page is built and no photo is stored yet, so after
    any sequence of button commands the video frame holds no image. *)
Theorem video_frame_stays_empty (cmds : list command) :
  video_frame (handle_all init cmds) = None.
Proof.
  unfold handle_all.
  assert (H : ∀ a, video_frame (foldl handle a cmds) = video_frame a).
  { induction cmds as [|cmd cmds IH]; intros a; [reflexivity|].
    simpl. rewrite IH. apply handle_keeps_video_frame. }
  rewrite H. reflexivity.
Qed.

(** X21. After any sequence of button commands the image on the upload
    page is the stored photo, and a stored photo is 180 by 180 pixels;
    a cancelled or failed upload changes neither. *)
Theorem photo_label_is_current_photo (cmds : list command) :
  let a := handle_all init cmds in
  photo_label a = current_photo a
  ∧ match current_photo a with
    | Some img => width img = 180 ∧ height img = 180
    | None => True
    end
  ∧ handle a (UploadImage Cancelled) = a
  ∧ handle a (UploadImage Unreadable) = a.
Proof.
  cbn zeta. unfold handle_all.
  assert (H : ∀ a,
    (photo_label a = current_photo a
     ∧ match current_photo a with
       | Some img => width img = 180 ∧ height img = 180
       | None => True
       end) →
    photo_label (foldl handle a cmds) = current_photo (foldl handle a cmds)
    ∧ match current_photo (foldl handle a cmds) with
      | Some img => width img = 180 ∧ height img = 180
      | None => True
      end).
  { induction cmds as [|cmd cmds IH]; intros a Ha; [exact Ha|].
    simpl. apply IH.
    destruct cmd as [| |[| |img]| | |]; try exact Ha.
    simpl. repeat split; reflexivity. }
  destruct (H init) as [H1 H2]; [split; [reflexivity|exact I]|].
  repeat split; assumption.
Qed.

End UiFacts.

(** ** Further facts on the entity comparator *)

Module EntitiesMore.
Import Entities Judgment.

(** X24. The two outputs count the CV set: matched and unmentioned together
    have as many entities as the CV, which is the total that the quick
    stats print; and there are no more matched entities than entities in
    the transcript. *)
Theorem compare_entities_sizes (A B : gset entity) :
  (size (compare_entities A B).1 + size (compare_entities A B).2 = size B)%nat
  ∧ (size (compare_entities A B).1 ≤ size A)%nat.
Proof.
  unfold compare_entities. cbn [fst snd]. split.
  - rewrite <- size_union by set_solver. f_equal.
    apply set_eq. intros e.
    rewrite elem_of_union, elem_of_intersection, elem_of_difference.
    destruct (decide (e ∈ A)); tauto.
  - apply subseteq_size. set_solver.
Qed.

(** X25. Nothing is unmentioned exactly when the transcript covers the CV,
    and nothing is matched exactly when the two sets are disjoint; comparing
    a set with itself matches everything. *)
Theorem compare_entities_extremes (A B : gset entity) :
  ((compare_entities A B).2 = ∅ ↔ B ⊆ A)
  ∧ ((compare_entities A B).1 = ∅ ↔ A ## B)
  ∧ compare_entities A A = (A, ∅).
Proof.
  unfold compare_entities. cbn [fst snd]. split; [|split].
  - split; intros H.
    + intros e He. destruct (decide (e ∈ A)) as [|Hn]; [assumption|].
      assert (e ∈ B ∖ A) as Hd by set_solver. rewrite H in Hd. set_solver.
    + set_solver.
  - split; intros H; set_solver.
  - f_equal; set_solver.
Qed.

(** X26. The fallback can only say HIRE when the transcript and the CV
    have at least three entities each, and fewer than five errors. *)
Theorem fallback_hire_needs_three (grammar_errors : Z) (A B : gset entity) :
  fallback_verdict grammar_errors (size (compare_entities A B).1) = "HIRE" →
  (3 ≤ size A)%nat ∧ (3 ≤ size B)%nat ∧ grammar_errors < 5.
Proof.
  unfold fallback_verdict.
  destruct (Z.ltb_spec grammar_errors 5); cbn [andb];
    [|destruct (15 <? grammar_errors); discriminate].
  destruct (Nat.leb_spec 3 (size (compare_entities A B).1)) as [Hm|];
    [|destruct (15 <? grammar_errors); discriminate].
  intros _.
  assert ((size (compare_entities A B).1 ≤ size A)%nat)
    by (apply subseteq_size; unfold compare_entities; set_solver).
  assert ((size (compare_entities A B).1 ≤ size B)%nat)
    by (apply subseteq_size; unfold compare_entities; set_solver).
  lia.
Qed.

Lemma fallback_hire_needs_three_witness :
  (3 ≤ size ({[ ("Acme", "ORG"); ("Python", "SKILL"); ("Rocq", "SKILL") ]}
              : gset entity))%nat.
Proof.
  apply (fallback_hire_needs_three 2
           {[ ("Acme", "ORG"); ("Python", "SKILL"); ("Rocq", "SKILL") ]}
           {[ ("Acme", "ORG"); ("Python", "SKILL"); ("Rocq", "SKILL") ]}).
  vm_compute. reflexivity.
Defined.

End EntitiesMore.
